(** * The compiler driver of the C-to-ARM cross compiler

    A shallow embedding of [Backend/compiler.py]: the command-line driver
    [compile_code] and the Flask handler [api_compile].

    The driver is glue code around five imported modules ([cparser],
    [scanner], [semantic_analyser], [code_gen], [ir_to_armv8]).  Their code
    is not part of the driver; here they are a [Host] interface whose
    operations transform the file system and the modules' own state, may
    print, and may raise.  The driver itself is embedded statement by
    statement in a state-and-exception monad over a [world] made of the
    text written to [sys.stdout], the file system, the modules' state and
    the log of the calls the driver made. *)

From Stdlib Require Import Ascii String ZArith Lia.
From stdpp Require Import base gmap strings list.

Local Open Scope Z_scope.

(** ** Python [str] operations used by the driver

    A [string] is a sequence of code points below 256; the predicates below
    are Python's, cut down to that range. *)

Module PyStr.

Definition nl : string := String "010"%char "".
Definition cr : ascii := "013"%char.
Definition lf : ascii := "010"%char.

(** [str.isspace] of one character: 0x09-0x0D, 0x1C-0x20, 0x85, 0xA0. *)
Definition isspace (c : ascii) : bool :=
  let n := Ascii.N_of_ascii c in
  ((9 <=? n) && (n <=? 13) || (28 <=? n) && (n <=? 32)
   || (n =? 133) || (n =? 160))%N.

Fixpoint lstrip (s : string) : string :=
  match s with
  | EmptyString => EmptyString
  | String c s' => if isspace c then lstrip s' else s
  end.

Fixpoint rstrip (s : string) : string :=
  match s with
  | EmptyString => EmptyString
  | String c s' =>
      match rstrip s' with
      | EmptyString => if isspace c then EmptyString else String c EmptyString
      | r => String c r
      end
  end.

(** [s.strip()] *)
Definition strip (s : string) : string := rstrip (lstrip s).

(** [s.startswith(p)] *)
Definition startswith (s p : string) : bool := String.prefix p s.

(** [bool(s)]: a string is true when it is not empty. *)
Definition truthy (s : string) : bool :=
  match s with EmptyString => false | _ => true end.

(** [s.replace(old, new)] for a non-empty [old]: occurrences are found
    from the left and do not overlap; [skip] counts the characters of
    the occurrence just replaced that are still to be passed over. *)
Fixpoint replace_from (skip : nat) (old new s : string) : string :=
  match s with
  | EmptyString => EmptyString
  | String c s' =>
      match skip with
      | S k => replace_from k old new s'
      | O =>
          if String.prefix old s
          then new +:+ replace_from (Nat.pred (String.length old)) old new s'
          else String c (replace_from O old new s')
      end
  end.

Definition replace (s old new : string) : string := replace_from O old new s.

(** Line boundaries of [str.splitlines]. *)
Definition is_linebreak (c : ascii) : bool :=
  let n := Ascii.N_of_ascii c in
  ((10 <=? n) && (n <=? 13) || (28 <=? n) && (n <=? 30) || (n =? 133))%N.

(** [s.splitlines()]: a carriage return followed by a line feed is one
    boundary, and a final boundary does not open an empty last line. *)
Fixpoint splitlines (s : string) : list string :=
  match s with
  | EmptyString => []
  | String c s' =>
      if is_linebreak c then
        match s' with
        | String c' s'' =>
            if Ascii.eqb c cr && Ascii.eqb c' lf
            then EmptyString :: splitlines s''
            else EmptyString :: splitlines s'
        | EmptyString => [EmptyString]
        end
      else
        match splitlines s' with
        | [] => [String c EmptyString]
        | l :: ls => String c l :: ls
        end
  end.

(** [sep.join(l)] *)
Definition join (sep : string) (l : list string) : string := String.concat sep l.

(** [sub in s] *)
Fixpoint contains (sub s : string) : bool :=
  match s with
  | EmptyString => String.prefix sub EmptyString
  | String _ s' => String.prefix sub s || contains sub s'
  end.

End PyStr.

(** ** Paths: [os.path.join] and [os.path.dirname], for a separator [sep] *)

Module OsPath.

Fixpoint ends_with_sep (sep : ascii) (s : string) : bool :=
  match s with
  | EmptyString => false
  | String c EmptyString => Ascii.eqb c sep
  | String _ s' => ends_with_sep sep s'
  end.

Definition join (sep : ascii) (a b : string) : string :=
  if PyStr.startswith b (String sep "") then b
  else if negb (PyStr.truthy a) || ends_with_sep sep a then a +:+ b
  else a +:+ String sep "" +:+ b.

(** [p[:p.rfind(sep) + 1]], or nothing when [p] has no separator *)
Fixpoint head (sep : ascii) (p : string) : option string :=
  match p with
  | EmptyString => None
  | String c p' =>
      match head sep p' with
      | Some h => Some (String c h)
      | None => if Ascii.eqb c sep then Some (String c "") else None
      end
  end.

Fixpoint rstrip_sep (sep : ascii) (s : string) : string :=
  match s with
  | EmptyString => EmptyString
  | String c s' =>
      match rstrip_sep sep s' with
      | EmptyString => if Ascii.eqb c sep then EmptyString else String c EmptyString
      | r => String c r
      end
  end.

Definition dirname (sep : ascii) (p : string) : string :=
  match head sep p with
  | None => ""
  | Some h => match rstrip_sep sep h with EmptyString => h | d => d end
  end.

End OsPath.

(** ** The filter on the interpreter's output (lines 132-137) *)

Definition marker : string := "PRINT".

(** One step of the list comprehension: a line that starts with the marker
    contributes [line.replace("PRINT", "").strip()], any other line nothing. *)
Definition comprehension_step (acc : list string) (line : string) : list string :=
  if PyStr.startswith line marker
  then acc ++ [PyStr.strip (PyStr.replace line marker "")]
  else acc.

(** [[line.replace("PRINT", "").strip() for line in tester_output.splitlines()
      if line.startswith("PRINT")]] *)
Definition marked_lines (tester_output : string) : list string :=
  fold_left comprehension_step (PyStr.splitlines tester_output) [].

(** The text the driver prints after [Program output:], by [args.verbose]. *)
Definition displayed_output (verbose : bool) (tester_output : string) : string :=
  if negb verbose
  then PyStr.join PyStr.nl (marked_lines tester_output)
  else tester_output.

(** *** The filter as the specification words it

    A line carries the marker when [PRINT] occurs in it; the marker is
    stripped by removing it (and the blanks left around the rest). *)
Definition carries_marker (line : string) : bool := PyStr.contains marker line.
Definition begins_with_marker (line : string) : bool := PyStr.startswith line marker.
Definition marker_stripped (line : string) : string :=
  PyStr.strip (PyStr.replace line marker "").

Definition displayed_as_claimed (tester_output : string) : string :=
  PyStr.join PyStr.nl
    (map marker_stripped (List.filter carries_marker (PyStr.splitlines tester_output))).

(** ** Values exchanged with the outside *)

(** A raised Python exception (an instance of [Exception]): its class and
    the text [str(e)] gives. *)
Record exn := Exn { exn_class : string; exn_str : string }.

Definition RuntimeError (msg : string) : exn := Exn "RuntimeError" msg.
Definition AttributeError (msg : string) : exn := Exn "AttributeError" msg.
Definition TypeError (msg : string) : exn := Exn "TypeError" msg.

(** Line 27. *)
Definition MAX_VIRTUAL_MEMORY : Z := 50 * 1024 * 1024.

(** What a [preexec_fn] does in the child process before the interpreter
    starts: [resource.setrlimit(resource.RLIMIT_AS, (soft, hard))]. *)
Inductive preexec := setrlimit_RLIMIT_AS (soft hard : Z).

(** Lines 30-32. *)
Definition limit_virtual_memory : preexec :=
  setrlimit_RLIMIT_AS MAX_VIRTUAL_MEMORY MAX_VIRTUAL_MEMORY.

(** [subprocess.PIPE], the only non-default value the driver gives [stderr]. *)
Inductive redirection := PIPE.

(** The calls the driver makes into the imported modules and into
    [subprocess]. *)
Inductive call :=
| SymbolTableManager_init
| MemoryManager_init
| Parser (source_file : string)
| parse
| save_parse_tree
| save_symbol_table
| save_tokens
| save_syntax_errors
| save_lexical_errors
| save_semantic_errors
| save_output
| genARM
| check_output (tester_file cwd : string) (stderr : option redirection)
               (timeout : Z) (preexec_fn : option preexec).

Global Instance preexec_eq_dec : EqDecision preexec.
Proof. solve_decision. Defined.
Global Instance redirection_eq_dec : EqDecision redirection.
Proof. solve_decision. Defined.
Global Instance call_eq_dec : EqDecision call.
Proof. solve_decision. Defined.

Definition is_check_output (c : call) : bool :=
  match c with check_output _ _ _ _ _ => true | _ => false end.

(** The [args] object: the [argparse] namespace of the command line, or the
    [Args] class of the handler (lines 165-173). *)
Record Args := mkArgs {
  source_file : string;
  run : bool;
  verbose : bool;
  error_files : bool;
  abstract_syntax_tree : bool;
  symbol_table : bool;
  tokens : bool
}.

(** JSON values as Python objects: the request body and the response. *)
Local Unset Elimination Schemes.
Inductive json :=
| JNull
| JBool (b : bool)
| JInt (n : Z)
| JFloat (repr : string)
| JStr (s : string)
| JList (l : list json)
| JDict (d : list (string * json)).
Local Set Elimination Schemes.

(** [type(v).__name__] *)
Definition type_name (v : json) : string :=
  match v with
  | JNull => "NoneType" | JBool _ => "bool" | JInt _ => "int"
  | JFloat _ => "float" | JStr _ => "str" | JList _ => "list"
  | JDict _ => "dict"
  end.

(** How the [TypeError] of a built-in method names an argument of the
    wrong type: [None] for [None], the name of its type otherwise. *)
Definition bad_argument (v : json) : string :=
  match v with JNull => "None" | _ => type_name v end.

Fixpoint assoc (k : string) (d : list (string * json)) : option json :=
  match d with
  | [] => None
  | (k', v) :: d' => if String.eqb k k' then Some v else assoc k d'
  end.

(** What a view function returns: [jsonify(body)], or [jsonify(body), status]. *)
Record response := Response { status : Z; body : list (string * json) }.

(** ** The host: imported modules, clock, platform

    [env] is everything outside the driver that its calls can change: the
    class-level state of [SymbolTableManager] and [MemoryManager], the
    [Parser] object with its scanner, analyser and generator, the clock. *)

Record reply (env : Type) := Reply {
  r_files : gmap string string;    (* the file system after the call *)
  r_env : env;                     (* the outside state after the call *)
  r_printed : string;              (* what the call wrote to sys.stdout *)
  r_result : exn + string          (* raised, or returned; for check_output,
                                      which stands for line 130 as a whole,
                                      the decoded output, or what the launch
                                      or the decoding raised *)
}.
Arguments Reply {env}.
Arguments r_files {env}.
Arguments r_env {env}.
Arguments r_printed {env}.
Arguments r_result {env}.

Class Host := {
  env : Type;
  instant : Type;
  (** a call, made on a file system and an outside state *)
  ext : call -> gmap string string -> env -> reply env;
  (** [parser.scanner.lexical_errors], [parser.syntax_errors],
      [parser.semantic_analyzer.semantic_errors] *)
  lexical_errors : env -> string;
  syntax_errors : env -> string;
  semantic_errors : env -> string;
  (** [time.time()], and the text of [f"{stop - start:.6f}"] *)
  time_time : env -> instant;
  fmt_elapsed : instant -> instant -> string;
  (** [platform.system()] *)
  platform_system : string;
  (** the directory of [compiler.py] (line 16) and [os.sep] *)
  script_dir : string;
  os_sep : ascii;
  (** the name [tempfile.NamedTemporaryFile] picks for a suffix *)
  mkstemp : string -> gmap string string -> env -> string;
  (** the text of the [FileNotFoundError] the platform gives for a path
      that is not there; on Linux
      [[Errno 2] No such file or directory: '/tmp/tmpq3x9.c'] *)
  no_such_file : string -> string
}.

(** ** The driver's monad: state and exceptions *)

Section Driver.
Context {H : Host}.

Record world := World {
  w_stdout : string;               (* text written to sys.stdout so far *)
  w_files : gmap string string;    (* the file system: path to content *)
  w_env : env;                     (* the outside state *)
  w_log : list call                (* the calls made so far, oldest first *)
}.

Definition M (A : Type) : Type := world -> (exn + A) * world.

Global Instance M_ret : MRet M := fun A (a : A) (w : world) => (inr a, w).

Global Instance M_bind : MBind M := fun A B (f : A -> M B) (m : M A) (w : world) =>
  match m w with
  | (inl e, w') => (inl e, w')
  | (inr a, w') => f a w'
  end.

(** [raise e] *)
Definition raise {A} (e : exn) : M A := fun w => (inl e, w).

(** [try: body except cls: handler]; the driver's one clause of this
    kind names a class without subclasses, so a raised exception matches
    when its class is [cls]. *)
Definition try_except {A} (body : M A) (cls : string) (handler : M A) : M A :=
  fun w =>
    match body w with
    | (inl e, w') =>
        if String.eqb (exn_class e) cls then handler w' else (inl e, w')
    | r => r
    end.

(** [try: body except Exception as e: handler] *)
Definition try_except_Exception {A} (body : M A) (handler : exn -> M A) : M A :=
  fun w =>
    match body w with
    | (inl e, w') => handler e w'
    | r => r
    end.

(** [if b: m] *)
Definition when (b : bool) (m : M unit) : M unit := if b then m else mret tt.

(** [print(s)]: the text and a newline go to [sys.stdout]. *)
Definition print (s : string) : M unit := fun w =>
  (inr tt, World (w_stdout w +:+ s +:+ PyStr.nl) (w_files w) (w_env w) (w_log w)).

(** A call into an imported module or into [subprocess]: it is logged,
    the host's reply replaces the file system and the outside state, what
    it printed is appended to [sys.stdout], and it returns or raises. *)
Definition invoke (c : call) : M string := fun w =>
  let r := ext c (w_files w) (w_env w) in
  (r_result r,
   World (w_stdout w +:+ r_printed r) (r_files r) (r_env r) (w_log w ++ [c])).

(** Reading an attribute of the parser object, or the clock. *)
Definition observe {A} (f : env -> A) : M A := fun w => (inr (f (w_env w)), w).

(** [open(path, "w")]: the file is created or truncated. *)
Definition open_w (path : string) : M unit := fun w =>
  (inr tt, World (w_stdout w) (<[path := ""]> (w_files w)) (w_env w) (w_log w)).

(** [f.write(s)] on the file opened at [path]. *)
Definition f_write (path s : string) : M unit := fun w =>
  (inr tt, World (w_stdout w)
                 (<[path := default "" (w_files w !! path) +:+ s]> (w_files w))
                 (w_env w) (w_log w)).

(** [os.path.exists(path)] *)
Definition os_path_exists (path : string) : M bool := fun w =>
  (inr (bool_decide (is_Some (w_files w !! path))), w).

(** The [FileNotFoundError] raised for a [path] that is not there. *)
Definition file_not_found (path : string) : exn :=
  Exn "FileNotFoundError" (no_such_file path).

(** [os.remove(path)]: the file is deleted; when there is none the call
    raises [FileNotFoundError] and changes nothing. *)
Definition os_remove (path : string) : M unit := fun w =>
  match w_files w !! path with
  | Some _ =>
      (inr tt, World (w_stdout w) (delete path (w_files w)) (w_env w) (w_log w))
  | None => (inl (file_not_found path), w)
  end.

(** [os.makedirs(d, exist_ok=True)]: the file system here is flat and the
    one directory the driver asks for holds the running script. *)
Definition os_makedirs (d : string) : M unit := mret tt.

(** [with contextlib.redirect_stdout(io.StringIO()): body], then
    [getvalue()]: [body] writes to a fresh buffer, [sys.stdout] is put
    back when the block is left, normally or not. *)
Definition redirect_stdout {A} (body : M A) : M string := fun w =>
  match body (World "" (w_files w) (w_env w) (w_log w)) with
  | (r, w') =>
      let back := World (w_stdout w) (w_files w') (w_env w') (w_log w') in
      match r with
      | inl e => (inl e, back)
      | inr _ => (inr (w_stdout w'), back)
      end
  end.

(** ** [compile_code] (lines 35-142) *)

Definition no_lexical_errors : string := "There is no lexical errors.".
Definition no_syntax_errors : string := "There is no syntax error.".
Definition no_semantic_errors : string := "The input program is semantically correct.".

(** Line 86. *)
Definition output_path : string := OsPath.join os_sep script_dir "armv8_output.s".

(** Line 115. *)
Definition output_file : string :=
  OsPath.join os_sep (OsPath.join os_sep script_dir "output") "output.txt".

(** Lines 77-95, the branch taken when [has_errors]. *)
Definition report_errors (lexical_errors syntax_errors semantic_errors : string) : M unit :=
  print ("Compilation failed due to the following errors:" +:+ PyStr.nl) ;;
  when (PyStr.truthy lexical_errors)
       (print ("Lexical Errors:" +:+ PyStr.nl +:+ lexical_errors)) ;;
  when (PyStr.truthy syntax_errors)
       (print ("Syntax Errors:" +:+ PyStr.nl +:+ syntax_errors)) ;;
  when (PyStr.truthy semantic_errors)
       (print ("Semantic Errors:" +:+ PyStr.nl +:+ semantic_errors)) ;;
  os_makedirs (OsPath.dirname os_sep output_path) ;;
  open_w output_path ;;
  when (PyStr.truthy lexical_errors)
       (f_write output_path
          ("Lexical Errors:" +:+ PyStr.nl +:+ lexical_errors +:+ PyStr.nl +:+ PyStr.nl)) ;;
  when (PyStr.truthy syntax_errors)
       (f_write output_path
          ("Syntax Errors:" +:+ PyStr.nl +:+ syntax_errors +:+ PyStr.nl +:+ PyStr.nl)) ;;
  when (PyStr.truthy semantic_errors)
       (f_write output_path
          ("Semantic Errors:" +:+ PyStr.nl +:+ semantic_errors +:+ PyStr.nl)) ;;
  mret tt.

(** Lines 102-142, the body of [if args.run]. *)
Definition run_program (args : Args) : M unit :=
  print "Executing compiled program" ;;
  let plat := platform_system in
  tester_file ←
    (if String.eqb plat "Windows" then
       mret (OsPath.join os_sep (OsPath.join os_sep script_dir "interpreter") "tester_Windows.exe")
     else if String.eqb plat "Linux" then
       mret (OsPath.join os_sep (OsPath.join os_sep script_dir "interpreter") "tester_Linux.out")
     else if String.eqb plat "Darwin" then
       mret (OsPath.join os_sep (OsPath.join os_sep script_dir "interpreter") "tester_Mac.out")
     else raise (RuntimeError "Unsupported operating system!")) ;
  let output_dir := OsPath.dirname os_sep output_file in
  present ← os_path_exists output_file ;
  when present
    (let preexec_fn :=
       if String.eqb plat "Linux" then Some limit_virtual_memory else None in
     let stderr := if negb (verbose args) then Some PIPE else None in
     try_except
       (start ← observe time_time ;
        tester_output ← invoke (check_output tester_file output_dir stderr 10 preexec_fn) ;
        stop ← observe time_time ;
        let tester_output := displayed_output (verbose args) tester_output in
        print ("Execution took " +:+ fmt_elapsed start stop +:+ " s") ;;
        print "Program output:" ;;
        print tester_output)
       "TimeoutExpired"
       (print "RuntimeError: Execution timed out!")).

Definition compile_code (args : Args) : M unit :=
  print ("Compiling " +:+ source_file args) ;;
  invoke SymbolTableManager_init ;;
  invoke MemoryManager_init ;;
  invoke (Parser (source_file args)) ;;
  start ← observe time_time ;
  invoke parse ;;
  stop ← observe time_time ;
  print ("Compilation took " +:+ fmt_elapsed start stop +:+ " s") ;;
  when (abstract_syntax_tree args) (invoke save_parse_tree ;; mret tt) ;;
  when (symbol_table args) (invoke save_symbol_table ;; mret tt) ;;
  when (tokens args) (invoke save_tokens ;; mret tt) ;;
  when (error_files args)
       (invoke save_syntax_errors ;;
        invoke save_lexical_errors ;;
        invoke save_semantic_errors ;;
        mret tt) ;;
  invoke save_output ;;
  lexical_errors ← observe (fun e => PyStr.strip (lexical_errors e)) ;
  syntax_errors ← observe (fun e => PyStr.strip (syntax_errors e)) ;
  semantic_errors ← observe (fun e => PyStr.strip (semantic_errors e)) ;
  let flag_lex := negb (String.eqb lexical_errors no_lexical_errors) in
  let flag_syn := negb (String.eqb syntax_errors no_syntax_errors) in
  let flag_sem := negb (String.eqb semantic_errors no_semantic_errors) in
  let has_errors := flag_lex || flag_sem || flag_syn in
  if has_errors then
    report_errors lexical_errors syntax_errors semantic_errors
  else
    print "Compilation successful!" ;;
    invoke genARM ;;
    when (run args) (run_program args).

(** ** [api_compile] (lines 152-188) *)

(** [data.get("code", "")] *)
Definition data_get_code (data : json) : M json :=
  match data with
  | JDict d => mret (default (JStr "") (assoc "code" d))
  | v => raise (AttributeError
                  ("'" +:+ type_name v +:+ "' object has no attribute 'get'"))
  end.

(** Lines 159-162: the temporary file is created, [code] is written to it
    when it is a [str], and the file stays ([delete=False]); [tmp.write]
    of anything else raises [TypeError], the file having been created. *)
Definition write_temporary_file (code : json) : M string := fun w =>
  let name := mkstemp ".c" (w_files w) (w_env w) in
  let created := World (w_stdout w) (<[name := ""]> (w_files w)) (w_env w) (w_log w) in
  match code with
  | JStr text =>
      (inr name, World (w_stdout w) (<[name := text]> (w_files w)) (w_env w) (w_log w))
  | v => (inl (TypeError ("write() argument must be str, not " +:+ bad_argument v)),
          created)
  end.

(** Lines 165-175. *)
Definition api_args (source_path : string) : Args :=
  mkArgs source_path false false false false false false.

(** The [try] block, lines 155-185; [request.get_json()] either raises
    or gives the parsed body. *)
Definition api_try (get_json : exn + json) : M response :=
  data ← (match get_json with inl e => raise e | inr v => mret v end) ;
  code ← data_get_code data ;
  source_path ← write_temporary_file code ;
  let args := api_args source_path in
  output ← redirect_stdout (compile_code args) ;
  os_remove source_path ;;
  mret (Response 200 [("success", JBool true); ("output", JStr output)]).

(** The [except Exception as e] clause, lines 187-188. *)
Definition api_except (e : exn) : M response :=
  mret (Response 500 [("success", JBool false); ("error", JStr (exn_str e))]).

Definition api_compile (get_json : exn + json) : M response :=
  try_except_Exception (api_try get_json) api_except.

End Driver.

(** ** The run in two parts

    [pipeline] is the run up to the point where the three error texts are
    collected (lines 39-67); [conclude] is what the driver does with them
    (lines 68-142).  [compile_code_pipeline] below shows that
    [compile_code] is one after the other. *)

Section Parts.
Context {H : Host}.

(** Lines 39-60: both managers are initialised, the parser is built and
    run, the dumps asked for are saved. *)
Definition front (args : Args) : M unit :=
  print ("Compiling " +:+ source_file args) ;;
  invoke SymbolTableManager_init ;;
  invoke MemoryManager_init ;;
  invoke (Parser (source_file args)) ;;
  start ← observe time_time ;
  invoke parse ;;
  stop ← observe time_time ;
  print ("Compilation took " +:+ fmt_elapsed start stop +:+ " s") ;;
  when (abstract_syntax_tree args) (invoke save_parse_tree ;; mret tt) ;;
  when (symbol_table args) (invoke save_symbol_table ;; mret tt) ;;
  when (tokens args) (invoke save_tokens ;; mret tt) ;;
  when (error_files args)
       (invoke save_syntax_errors ;;
        invoke save_lexical_errors ;;
        invoke save_semantic_errors ;;
        mret tt).

(** Lines 65-67: the three stripped texts, lexical, syntax, semantic. *)
Definition collect_errors : M (string * string * string) :=
  observe (fun e => (PyStr.strip (lexical_errors e),
                     PyStr.strip (syntax_errors e),
                     PyStr.strip (semantic_errors e))).

Definition pipeline (args : Args) : M (string * string * string) :=
  front args ;; invoke save_output ;; collect_errors.

(** Lines 68-74. *)
Definition has_errors (texts : string * string * string) : bool :=
  let '(lexical, syntax, semantic) := texts in
  negb (String.eqb lexical no_lexical_errors)
  || negb (String.eqb semantic no_semantic_errors)
  || negb (String.eqb syntax no_syntax_errors).

(** Lines 97-142, the branch taken when there are no errors. *)
Definition succeed (args : Args) : M unit :=
  print "Compilation successful!" ;;
  invoke genARM ;;
  when (run args) (run_program args).

(** Lines 97-98 alone: the backend is run. *)
Definition backend : M string :=
  print "Compilation successful!" ;; invoke genARM.

(** A successful compilation: the pipeline ends without errors and the
    backend returns, leaving the world [w2]. *)
Definition compiled (args : Args) (w w2 : world) : Prop :=
  exists texts w1 v,
    pipeline args w = (inr texts, w1) /\ has_errors texts = false
    /\ backend w1 = (inr v, w2).

(** Lines 106-113: the interpreter of the platform, if it has one. *)
Definition tester_file_for (plat : string) : option string :=
  let interpreter := OsPath.join os_sep script_dir "interpreter" in
  if String.eqb plat "Windows" then Some (OsPath.join os_sep interpreter "tester_Windows.exe")
  else if String.eqb plat "Linux" then Some (OsPath.join os_sep interpreter "tester_Linux.out")
  else if String.eqb plat "Darwin" then Some (OsPath.join os_sep interpreter "tester_Mac.out")
  else None.

(** Lines 124-130: the launch of the interpreter. *)
Definition launch (args : Args) (tester_file : string) : call :=
  check_output tester_file (OsPath.dirname os_sep output_file)
    (if negb (verbose args) then Some PIPE else None)
    10
    (if String.eqb platform_system "Linux" then Some limit_virtual_memory else None).

(** [print("Executing compiled program")] in the world [w]. *)
Definition announced (w : world) : world :=
  World (w_stdout w +:+ "Executing compiled program" +:+ PyStr.nl)
        (w_files w) (w_env w) (w_log w).

Definition conclude (args : Args) (texts : string * string * string) : M unit :=
  let '(lexical, syntax, semantic) := texts in
  if has_errors texts then report_errors lexical syntax semantic
  else succeed args.

(** [only P m]: whatever the world, [m] leaves the log as it found it,
    followed by calls that all satisfy [P]. *)
Definition only {A} (P : call -> Prop) (m : M A) : Prop :=
  forall w, exists l, w_log (m w).2 = w_log w ++ l /\ Forall P l.

(** The interpreter is launched with the fixed timeout of 10, and under
    the address-space limit of 50 * 2^20 bytes exactly on Linux. *)
Definition launch_ok (c : call) : Prop :=
  exists tester_file cwd stderr,
    c = check_output tester_file cwd stderr 10
          (if String.eqb platform_system "Linux"
           then Some (setrlimit_RLIMIT_AS (50 * 2 ^ 20) (50 * 2 ^ 20)) else None).

(** The world [w] with [s] written to [sys.stdout] before everything else. *)
Definition prefixed (s : string) (w : world) : world :=
  World (s +:+ w_stdout w) (w_files w) (w_env w) (w_log w).

(** [frames m]: what [m] does, and what it prints, does not depend on
    what was printed before. *)
Definition frames {A} (m : M A) : Prop :=
  forall s w, m (prefixed s w) = ((m w).1, prefixed s (m w).2).

(** [hoare P m Q]: from files and an outside state that satisfy [P], [m]
    returns, with a value, files and an outside state that satisfy [Q]. *)
Definition hoare {A} (P : gmap string string -> env -> Prop) (m : M A)
    (Q : A -> gmap string string -> env -> Prop) : Prop :=
  forall w, P (w_files w) (w_env w) ->
    exists a w', m w = (inr a, w') /\ Q a (w_files w') (w_env w').

(** The calls a run added to the log, given the log it started from. *)
Definition calls_since (w w' : world) : list call :=
  drop (length (w_log w)) (w_log w').

(** How often the backend was invoked in a list of calls. *)
Definition genARM_count (l : list call) : nat := count_occ call_eq_dec l genARM.

(** The error report as the specification words it: the sections of the
    categories whose text is not empty, lexical, syntax, semantic, each a
    heading line and the text; the first two are followed by an empty
    line. *)
Definition section (heading text ending : string) : list string :=
  if PyStr.truthy text then [heading +:+ PyStr.nl +:+ text +:+ ending] else [].

Definition error_report (texts : string * string * string) : string :=
  let '(lexical, syntax, semantic) := texts in
  String.concat ""
    (section "Lexical Errors:" lexical (PyStr.nl +:+ PyStr.nl)
     ++ section "Syntax Errors:" syntax (PyStr.nl +:+ PyStr.nl)
     ++ section "Semantic Errors:" semantic PyStr.nl).

End Parts.


(** ** The modules behind the driver's calls *)

Section Pipeline.

(** The state the specification calls process-wide: the scope stack of
    the Symbol Table Manager, the counters of the Memory Manager; and the
    state a [Parser] object owns, with its scanner, analyser and
    generator. *)
Variables symtab memory pstate : Type.

(** What [SymbolTableManager.init()] and [MemoryManager.init()] leave. *)
Variable symtab0 : symtab.
Variable memory0 : memory.

(** [Parser(path)] on the text of the file, and [parser.parse()]. *)
Variable new_parser : string -> pstate.
Variable run_parse : pstate -> symtab -> memory -> pstate * symtab * memory.

(** The three error texts and the serialised quadruples of a parser. *)
Variables lex_text syn_text sem_text quadruples : pstate -> string.

(** The optional dumps: where each goes and what it holds. *)
Variable dump_path : call -> string.
Variable dump_text : call -> pstate -> symtab -> string.

(** The hand-off file of [save_output()], and the lowering of its text,
    with the memory layout, to assembly. *)
Variable quad_path : string.
Variable lower : string -> memory -> string.

(** The interpreter binary, run on the files it finds. *)
Variable interpreter : gmap string string -> exn + string.

Variables (plat dir : string) (sep : ascii).
Variable tmp_name : string -> gmap string string -> string.

Record pipeline_env := PipelineEnv {
  e_symtab : symtab;
  e_memory : memory;
  e_parser : option pstate;
  e_clock : nat
}.

Definition FileNotFoundError (path : string) : exn :=
  Exn "FileNotFoundError" ("[Errno 2] No such file or directory: '" +:+ path +:+ "'").

Definition returns (files : gmap string string) (e : pipeline_env) : reply pipeline_env :=
  Reply files e "" (inr "").

Definition raises (files : gmap string string) (e : pipeline_env) (x : exn)
  : reply pipeline_env :=
  Reply files e "" (inl x).

(** A method of the parser object: nothing to call before [Parser(...)]. *)
Definition with_parser (files : gmap string string) (e : pipeline_env)
    (k : pstate -> reply pipeline_env) : reply pipeline_env :=
  match e_parser e with
  | Some p => k p
  | None => raises files e (Exn "NameError" "name 'parser' is not defined")
  end.

(** Modelled from the spec: the modules [scanner], [cparser],
    [semantic_analyser], [code_gen] and [ir_to_armv8], which the driver
    imports and which are not part of it.  Each [init()] resets its
    manager; [Parser(path)] reads the source text into a new parser
    object; [parse()] runs the single pass over that object and the two
    managers; the dumps and [save_output()] write files; [genARM()]
    lowers the hand-off file to [armv8_output.s]; the interpreter reads
    the files and writes none. *)
Definition pipeline_ext (c : call) (files : gmap string string) (e : pipeline_env)
  : reply pipeline_env :=
  match c with
  | SymbolTableManager_init =>
      returns files (PipelineEnv symtab0 (e_memory e) (e_parser e) (e_clock e))
  | MemoryManager_init =>
      returns files (PipelineEnv (e_symtab e) memory0 (e_parser e) (e_clock e))
  | Parser path =>
      match files !! path with
      | Some text =>
          returns files (PipelineEnv (e_symtab e) (e_memory e)
                                     (Some (new_parser text)) (e_clock e))
      | None => raises files e (FileNotFoundError path)
      end
  | parse =>
      with_parser files e (fun p =>
        let '(p', s', m') := run_parse p (e_symtab e) (e_memory e) in
        returns files (PipelineEnv s' m' (Some p') (S (e_clock e))))
  | save_output =>
      with_parser files e (fun p =>
        returns (<[quad_path := quadruples p]> files) e)
  | genARM =>
      match files !! quad_path with
      | Some quads =>
          returns (<[OsPath.join sep dir "armv8_output.s" := lower quads (e_memory e)]> files) e
      | None => raises files e (FileNotFoundError quad_path)
      end
  | check_output _ _ _ _ _ =>
      Reply files (PipelineEnv (e_symtab e) (e_memory e) (e_parser e) (S (e_clock e)))
            "" (interpreter files)
  | dump =>
      with_parser files e (fun p =>
        returns (<[dump_path dump := dump_text dump p (e_symtab e)]> files) e)
  end.

(** What the parse of a text gives, the managers being initialised. *)
Definition parsed (text : string) : pstate * symtab * memory :=
  run_parse (new_parser text) symtab0 memory0.

(** The outside state after the parse of [text]. *)
Definition settled (text : string) (e : pipeline_env) : Prop :=
  e_symtab e = (parsed text).1.2 /\ e_memory e = (parsed text).2
  /\ e_parser e = Some (parsed text).1.1.

(** The three stripped texts of the parse of [text]. *)
Definition texts_of (text : string) : string * string * string :=
  (PyStr.strip (lex_text (parsed text).1.1),
   PyStr.strip (syn_text (parsed text).1.1),
   PyStr.strip (sem_text (parsed text).1.1)).

Definition parser_text (f : pstate -> string) (e : pipeline_env) : string :=
  match e_parser e with Some p => f p | None => "" end.

(** Modelled from the spec: the host made of these modules; the error
    texts are attributes of the parser object, empty before there is one. *)
Definition pipeline_host : Host := {|
  env := pipeline_env;
  instant := nat;
  ext := pipeline_ext;
  lexical_errors := parser_text lex_text;
  syntax_errors := parser_text syn_text;
  semantic_errors := parser_text sem_text;
  time_time := e_clock;
  fmt_elapsed := fun start stop => "0.00000" +:+ String (ascii_of_nat (48 + (stop - start) mod 10)) "";
  platform_system := plat;
  script_dir := dir;
  os_sep := sep;
  mkstemp := fun suffix files _ => tmp_name suffix files;
  no_such_file := fun path => "[Errno 2] No such file or directory: '" +:+ path +:+ "'"
|}.

End Pipeline.

Arguments PipelineEnv {symtab memory pstate}.
Arguments e_symtab {symtab memory pstate}.
Arguments e_memory {symtab memory pstate}.
Arguments e_parser {symtab memory pstate}.
Arguments e_clock {symtab memory pstate}.

(** The three error texts a run leaves behind. *)
Definition diagnostics {H : Host} (w : world) : string * string * string :=
  (lexical_errors (w_env w), syntax_errors (w_env w), semantic_errors (w_env w)).

(** ** A small instance

    A pipeline that reports a lexical error for [@], a syntax error for an
    empty statement and a semantic error for a call of [foo]; its
    interpreter prints what the program prints and does not stop on an
    endless loop. *)

Module Toy.

Definition lex_of (text : string) : string :=
  if PyStr.contains "@" text
  then "#1 : Lexical Error! Invalid input '@'." +:+ PyStr.nl
  else "There is no lexical errors.".

Definition syn_of (text : string) : string :=
  if PyStr.contains ";;" text
  then "#1 : Syntax Error! Unexpected ';'." +:+ PyStr.nl
  else "There is no syntax error.".

Definition sem_of (text : string) : string :=
  if PyStr.contains "foo(" text
  then "#1 : Semantic Error! 'foo' is not defined." +:+ PyStr.nl
  else "The input program is semantically correct.".

(** A parser object: the source text and, once parsed, the three texts. *)
Definition pstate : Type := string * (string * string * string).

Definition new_parser (text : string) : pstate := (text, ("", "", "")).

Definition run_parse (p : pstate) (scopes : nat) (next_address : nat)
  : pstate * nat * nat :=
  ((p.1, (lex_of p.1, syn_of p.1, sem_of p.1)), S scopes, (next_address + 4)%nat).

Definition quadruples (p : pstate) : string := "(SOURCE, " +:+ p.1 +:+ ", , )".

Definition lower (quads : string) (next_address : nat) : string :=
  ".global _start" +:+ PyStr.nl +:+ "// " +:+ quads.

Definition dump_path (c : call) : string :=
  match c with
  | save_parse_tree => "/app/output/parse_tree.txt"
  | save_symbol_table => "/app/output/symbol_table.txt"
  | save_tokens => "/app/output/tokens.txt"
  | save_syntax_errors => "/app/errors/syntax_errors.txt"
  | save_lexical_errors => "/app/errors/lexical_errors.txt"
  | _ => "/app/errors/semantic_errors.txt"
  end.

Definition dump_text (c : call) (p : pstate) (scopes : nat) : string :=
  match c with
  | save_syntax_errors => p.2.1.2
  | save_lexical_errors => p.2.1.1
  | save_semantic_errors => p.2.2
  | _ => p.1
  end.

Definition interpreter (quad_path : string) (files : gmap string string) : exn + string :=
  match files !! quad_path with
  | Some quads =>
      if PyStr.contains "while(1)" quads
      then inl (Exn "TimeoutExpired" "Command 'tester' timed out after 10 seconds")
      else inr ("PC = 1" +:+ PyStr.nl +:+ "PRINT    3" +:+ PyStr.nl)
  | None => inl (Exn "CalledProcessError" "Command 'tester' returned non-zero exit status 1.")
  end.

(** The host, by platform and by the path of the hand-off file. *)
Definition host (plat quad_path : string) : Host :=
  pipeline_host nat nat pstate 0%nat 0%nat new_parser run_parse
    (fun p => p.2.1.1) (fun p => p.2.1.2) (fun p => p.2.2) quadruples
    dump_path dump_text quad_path lower (interpreter quad_path)
    plat "/app" "/"%char (fun suffix _ => "/tmp/tmpq3x9" +:+ suffix).

Definition linux : Host := host "Linux" "/app/output/output.txt".

(** The world a run starts in: the source file and nothing else. *)
Definition start {H : Host} (e : env) (path text : string) : world :=
  World "" {[ path := text ]} e [].

Definition fresh : pipeline_env nat nat pstate := PipelineEnv 7%nat 12%nat None 0%nat.

End Toy.

(** ** Further definitions: traces, texts, the entry point *)

Module PyText.

(** Every character of [s] satisfies [p]. *)
Fixpoint all_chars (p : ascii -> bool) (s : string) : bool :=
  match s with
  | EmptyString => true
  | String c s' => p c && all_chars p s'
  end.

(** [s] is made of whitespace only (or is empty). *)
Definition all_space (s : string) : bool := all_chars PyStr.isspace s.

(** [s] has no line boundary. *)
Definition no_linebreak (s : string) : bool :=
  all_chars (fun c => negb (PyStr.is_linebreak c)) s.

(** [s.count(c)] for one character *)
Fixpoint count_char (c : ascii) (s : string) : nat :=
  match s with
  | EmptyString => O
  | String d s' => ((if Ascii.eqb d c then 1 else 0) + count_char c s')%nat
  end.


(** What [lstrip] leaves: a string that is empty or begins with a
    character that is not whitespace. *)
Definition left_trimmed (s : string) : Prop :=
  match s with EmptyString => True | String c _ => PyStr.isspace c = false end.

End PyText.



(** Is the body a JSON object, is the value a string. *)
Definition is_dict (v : json) : bool := match v with JDict _ => true | _ => false end.
Definition is_str (v : json) : bool := match v with JStr _ => true | _ => false end.

Section Traces.
Context {H : Host}.

(** [touches_only p m]: [m] leaves every file but [p] as it found it. *)
Definition touches_only {A} (p : string) (m : M A) : Prop :=
  forall w q, q <> p -> w_files (m w).2 !! q = w_files w !! q.

(** [appends m]: [m] only adds to what is on [sys.stdout]. *)
Definition appends {A} (m : M A) : Prop :=
  forall w, exists t, w_stdout (m w).2 = w_stdout w +:+ t.




(** A path that [os.path.dirname] gives back: it does not end with the
    separator, or it is made of separators only. *)
Definition clean_dir (sep : ascii) (d : string) : Prop :=
  OsPath.ends_with_sep sep d = false
  \/ PyText.all_chars (fun c => Ascii.eqb c sep) d = true.

(** Lines 51-60: the dumps a run saves, in the order it saves them. *)
Definition dump_calls (args : Args) : list call :=
  (if abstract_syntax_tree args then [save_parse_tree] else [])
  ++ (if symbol_table args then [save_symbol_table] else [])
  ++ (if tokens args then [save_tokens] else [])
  ++ (if error_files args
      then [save_syntax_errors; save_lexical_errors; save_semantic_errors] else []).

(** Lines 40-62: the calls of a run up to the error check. *)
Definition planned_calls (args : Args) : list call :=
  [SymbolTableManager_init; MemoryManager_init; Parser (source_file args); parse]
  ++ dump_calls args ++ [save_output].

(** [follows m plan]: when [m] returns it has made the calls of [plan], in
    order; when it raises, it has made them up to the call that raised. *)
Definition follows {A} (m : M A) (plan : list call) : Prop :=
  forall w,
    match (m w).1 with
    | inr _ => w_log (m w).2 = w_log w ++ plan
    | inl _ => exists l c rest,
        plan = l ++ c :: rest /\ w_log (m w).2 = w_log w ++ l ++ [c]
    end.

(** How many launches of the interpreter a list of calls has. *)
Definition launch_count (l : list call) : nat :=
  length (List.filter is_check_output l).

(** Lines 77-83: what a failed run prints after the pipeline. *)
Definition printed_report (texts : string * string * string) : string :=
  let '(lexical, syntax, semantic) := texts in
  "Compilation failed due to the following errors:" +:+ PyStr.nl +:+ PyStr.nl
  +:+ String.concat ""
        (section "Lexical Errors:" lexical PyStr.nl
         ++ section "Syntax Errors:" syntax PyStr.nl
         ++ section "Semantic Errors:" semantic PyStr.nl).

(** Lines 138-140: what a run prints once the interpreter has returned. *)
Definition printed_execution (args : Args) (start stop : instant) (tester_output : string)
  : string :=
  "Execution took " +:+ fmt_elapsed start stop +:+ " s" +:+ PyStr.nl
  +:+ "Program output:" +:+ PyStr.nl
  +:+ displayed_output (verbose args) tester_output +:+ PyStr.nl.

(** The calls of the handler, for the temporary file [source_path]. *)
Definition handler_calls (source_path : string) : list call :=
  [SymbolTableManager_init; MemoryManager_init; Parser source_path; parse;
   save_output; genARM].

End Traces.

(** ** A host whose modules do nothing

    The three error texts are fixed, no call touches a file or prints, and
    the interpreter gives a fixed reply. *)

Module Scripted.

Definition host (plat lex syn sem : string) (tester : exn + string) : Host := {|
  env := unit;
  instant := unit;
  ext := fun c files e => Reply files e "" (if is_check_output c then tester else inr "");
  lexical_errors := fun _ => lex;
  syntax_errors := fun _ => syn;
  semantic_errors := fun _ => sem;
  time_time := fun _ => tt;
  fmt_elapsed := fun _ _ => "0.000000";
  platform_system := plat;
  script_dir := "/app";
  os_sep := "/"%char;
  mkstemp := fun suffix _ _ => "/tmp/tmpq3x9" +:+ suffix;
  no_such_file := fun path => "[Errno 2] No such file or directory: '" +:+ path +:+ "'"
|}.

(** No errors, on Linux, with a parser that removes the file it has
    read. *)
Definition consuming : Host := {|
  env := unit;
  instant := unit;
  ext := fun c files e =>
    match c with
    | Parser path => Reply (delete path files) e "" (inr "")
    | _ => Reply files e "" (inr "")
    end;
  lexical_errors := fun _ => "There is no lexical errors.";
  syntax_errors := fun _ => "There is no syntax error.";
  semantic_errors := fun _ => "The input program is semantically correct.";
  time_time := fun _ => tt;
  fmt_elapsed := fun _ _ => "0.000000";
  platform_system := "Linux";
  script_dir := "/app";
  os_sep := "/"%char;
  mkstemp := fun suffix _ _ => "/tmp/tmpq3x9" +:+ suffix;
  no_such_file := fun path => "[Errno 2] No such file or directory: '" +:+ path +:+ "'"
|}.

(** No errors, on Linux. *)
Definition clean (tester : exn + string) : Host :=
  host "Linux" "There is no lexical errors." "There is no syntax error."
       "The input program is semantically correct." tester.

(** A world with a source file and the file the interpreter runs. *)
Definition start {H : Host} (e : env) : world :=
  World "" {[ "/src/a.c" := "int x;"; "/app/output/output.txt" := "(ASSIGN, #1, 500, )" ]} e [].

End Scripted.

(** * Properties *)

(** ** Python strings and the output filter on examples *)

Example strip_ex : PyStr.strip ("  a b " +:+ PyStr.nl) = "a b".
Proof. reflexivity. Qed.

Example replace_ex : PyStr.replace "PRPRINTINT PRINT1" "PRINT" "" = "PRINT 1".
Proof. reflexivity. Qed.

Example splitlines_ex :
  PyStr.splitlines ("a" +:+ PyStr.nl +:+ PyStr.nl +:+ "b" +:+ String PyStr.cr PyStr.nl)
  = ["a"; ""; "b"].
Proof. reflexivity. Qed.

Example displayed_ex :
  displayed_output false ("PC = 3" +:+ PyStr.nl +:+ "PRINT    5" +:+ PyStr.nl +:+ "PRINT 7")
  = "5" +:+ PyStr.nl +:+ "7".
Proof. reflexivity. Qed.

Example dirname_ex : OsPath.dirname "/" "/app/output/output.txt" = "/app/output".
Proof. reflexivity. Qed.

Lemma str_app_nil_r (s : string) : s +:+ "" = s.
Proof.
  induction s as [|c s IH]; [reflexivity|].
  change (String c (s +:+ "") = String c s). now rewrite IH.
Qed.

Lemma str_app_assoc (a b c : string) : (a +:+ b) +:+ c = a +:+ b +:+ c.
Proof.
  induction a as [|x a IH]; [reflexivity|].
  change (String x ((a +:+ b) +:+ c) = String x (a +:+ b +:+ c)). now rewrite IH.
Qed.

(** A run with a known result, in the world it leaves. *)
Lemma run_result {A B} (x : A * B) (a : A) : x.1 = a -> x = (a, x.2).
Proof. destruct x; cbn; now intros ->. Qed.

(** ** Laws of the driver's monad and of its parts *)

Create HintDb driver.

Section Laws.
Context {H : Host}.

Ltac run_step :=
  match goal with
  | |- context [ext ?c ?f ?e] =>
      let r := fresh "r" in
      destruct (ext c f e) as [? ? ? [?|?]] eqn:r; cbn
  end.

Lemma compile_code_pipeline (args : Args) (w : world) :
  compile_code args w = (pipeline args ≫= conclude args) w.
Proof.
  unfold compile_code, pipeline, conclude, succeed, front, collect_errors, has_errors.
  destruct args as [src r v ef ast st tk]; cbn.
  unfold mbind, M_bind, mret, M_ret, when, invoke, print, observe; cbn.
  repeat (first [ reflexivity | run_step ]);
    destruct ast, st, tk, ef; cbn;
    repeat (first [ reflexivity | run_step ]).
Qed.

Lemma pipeline_front (args : Args) (w : world) :
  pipeline args w = (front args ≫= fun _ => invoke save_output ≫= fun _ => collect_errors) w.
Proof. reflexivity. Qed.

Lemma succeed_backend (args : Args) (w : world) :
  succeed args w = (backend ≫= fun _ => when (run args) (run_program args)) w.
Proof. reflexivity. Qed.

(** *** The log *)

Lemma only_silent {A} (P : call -> Prop) (m : M A) :
  (forall w, w_log (m w).2 = w_log w) -> only P m.
Proof. intros Hm w. exists []. rewrite Hm, app_nil_r. auto. Qed.

Lemma only_ret {A} P (a : A) : only P (mret a).
Proof. now apply only_silent. Qed.

Lemma only_raise {A} P (e : exn) : only P (raise e : M A).
Proof. now apply only_silent. Qed.

Lemma only_print P s : only P (print s).
Proof. now apply only_silent. Qed.

Lemma only_observe {A} P (f : env -> A) : only P (observe f).
Proof. now apply only_silent. Qed.

Lemma only_open_w P p : only P (open_w p).
Proof. now apply only_silent. Qed.

Lemma only_f_write P p s : only P (f_write p s).
Proof. now apply only_silent. Qed.

Lemma only_os_path_exists P p : only P (os_path_exists p).
Proof. now apply only_silent. Qed.

Lemma only_os_remove P p : only P (os_remove p).
Proof.
  apply only_silent. intros w. unfold os_remove.
  now destruct (w_files w !! p).
Qed.

Lemma only_os_makedirs P d : only P (os_makedirs d).
Proof. now apply only_silent. Qed.

Lemma only_invoke (P : call -> Prop) c : P c -> only P (invoke c).
Proof. intros Hc w. exists [c]. split; [reflexivity | auto]. Qed.

Lemma only_bind {A B} P (m : M A) (f : A -> M B) :
  only P m -> (forall a, only P (f a)) -> only P (m ≫= f).
Proof.
  intros Hm Hf w. destruct (Hm w) as (l1 & E1 & F1).
  unfold mbind, M_bind. destruct (m w) as [[e|a] w1]; cbn in *.
  - eauto.
  - destruct (Hf a w1) as (l2 & E2 & F2).
    exists (l1 ++ l2). rewrite E2, E1, app_assoc. split; [reflexivity|].
    apply Forall_app; auto.
Qed.

Lemma only_when P b (m : M unit) : only P m -> only P (when b m).
Proof. destruct b; [auto | intros _; apply only_ret]. Qed.

Lemma only_try_except {A} P (m h : M A) cls :
  only P m -> only P h -> only P (try_except m cls h).
Proof.
  intros Hm Hh w. destruct (Hm w) as (l1 & E1 & F1).
  unfold try_except. destruct (m w) as [[e|a] w1]; cbn in *; [|eauto].
  destruct (String.eqb (exn_class e) cls); cbn; [|eauto].
  destruct (Hh w1) as (l2 & E2 & F2).
  exists (l1 ++ l2). rewrite E2, E1, app_assoc. split; [reflexivity|].
  apply Forall_app; auto.
Qed.

Lemma only_mono {A} (P Q : call -> Prop) (m : M A) :
  (forall c, P c -> Q c) -> only P m -> only Q m.
Proof.
  intros HPQ Hm w. destruct (Hm w) as (l & E & F).
  exists l. split; [assumption|]. eapply Forall_impl; eauto.
Qed.

Lemma only_run {A} (P : call -> Prop) (m : M A) (w w' : world) r :
  only P m -> m w = (r, w') -> exists l, w_log w' = w_log w ++ l /\ Forall P l.
Proof. intros Hm E. specialize (Hm w). now rewrite E in Hm. Qed.

Lemma calls_since_app (w w' : world) l :
  w_log w' = w_log w ++ l -> calls_since w w' = l.
Proof. intros E. unfold calls_since. rewrite E. apply drop_app_length. Qed.

Lemma genARM_count_none l : Forall (fun c => c <> genARM) l -> genARM_count l = 0%nat.
Proof.
  unfold genARM_count. induction 1 as [|c l Hc _ IH]; [reflexivity|].
  cbn. destruct (call_eq_dec c genARM); [contradiction | assumption].
Qed.

Lemma genARM_count_app l1 l2 :
  genARM_count (l1 ++ l2) = (genARM_count l1 + genARM_count l2)%nat.
Proof. apply count_occ_app. Qed.

#[local] Hint Resolve only_ret only_raise only_print only_observe only_open_w
  only_f_write only_os_path_exists only_os_remove only_os_makedirs : driver.

Ltac only_tac :=
  repeat first
    [ apply only_bind; [| intros ?]
    | apply only_when
    | apply only_try_except
    | apply only_invoke; (discriminate || reflexivity || auto)
    | solve [auto with driver] ].

(** The calls of the blocks of the run. *)
Lemma front_calls (args : Args) :
  only (fun c => c <> save_output /\ c <> genARM /\ is_check_output c = false)
       (front args).
Proof. unfold front. only_tac; repeat split; discriminate. Qed.

Lemma pipeline_calls (args : Args) :
  only (fun c => c <> genARM /\ is_check_output c = false) (pipeline args).
Proof.
  unfold pipeline, collect_errors. only_tac.
Qed.

Lemma report_errors_calls a b c : only (fun _ => False) (report_errors a b c).
Proof. unfold report_errors. only_tac. Qed.

Lemma run_program_calls (args : Args) : only launch_ok (run_program args).
Proof.
  unfold run_program. only_tac.
  - repeat destruct (String.eqb platform_system _); auto with driver.
  - unfold launch_ok. do 3 eexists. reflexivity.
Qed.


Lemma launch_ok_check_output c : launch_ok c -> is_check_output c = true.
Proof. intros (? & ? & ? & ->). reflexivity. Qed.

(** After the pipeline: nothing on errors, the backend and then at most
    launches of the interpreter otherwise. *)
Lemma succeed_log (args : Args) (w : world) :
  exists l, w_log (succeed args w).2 = w_log w ++ genARM :: l /\ Forall launch_ok l.
Proof.
  unfold succeed, mbind, M_bind, print, invoke; cbn.
  destruct (ext genARM _ _) as [f e p [x|v]]; cbn.
  - exists []. auto.
  - match goal with |- context [when _ _ ?w0] =>
      destruct (only_when launch_ok (run args) _ (run_program_calls args) w0)
        as (l & E & F)
    end.
    exists l. cbn in E. rewrite E, <- app_assoc. auto.
Qed.

(** *** What is printed *)

Lemma frames_ret {A} (a : A) : frames (mret a).
Proof. now intros s w. Qed.

Lemma frames_raise {A} (e : exn) : frames (raise e : M A).
Proof. now intros s w. Qed.

Lemma frames_print t : frames (print t).
Proof. intros s w. unfold print, prefixed; cbn. now rewrite str_app_assoc. Qed.

Lemma frames_invoke c : frames (invoke c).
Proof. intros s w. unfold invoke, prefixed; cbn. now rewrite str_app_assoc. Qed.

Lemma frames_observe {A} (f : env -> A) : frames (observe f).
Proof. now intros s w. Qed.

Lemma frames_open_w p : frames (open_w p).
Proof. now intros s w. Qed.

Lemma frames_f_write p t : frames (f_write p t).
Proof. now intros s w. Qed.

Lemma frames_os_path_exists p : frames (os_path_exists p).
Proof. now intros s w. Qed.

Lemma frames_os_makedirs d : frames (os_makedirs d).
Proof. now intros s w. Qed.

Lemma frames_bind {A B} (m : M A) (f : A -> M B) :
  frames m -> (forall a, frames (f a)) -> frames (m ≫= f).
Proof.
  intros Hm Hf s w. unfold mbind, M_bind. rewrite Hm.
  destruct (m w) as [[e|a] w1]; cbn; [reflexivity | apply Hf].
Qed.

Lemma frames_when b (m : M unit) : frames m -> frames (when b m).
Proof. destruct b; [auto | intros _; apply frames_ret]. Qed.

Lemma frames_try_except {A} (m h : M A) cls :
  frames m -> frames h -> frames (try_except m cls h).
Proof.
  intros Hm Hh s w. unfold try_except. rewrite Hm.
  destruct (m w) as [[e|a] w1]; cbn; [|reflexivity].
  destruct (String.eqb (exn_class e) cls); [apply Hh | reflexivity].
Qed.

#[local] Hint Resolve frames_ret frames_raise frames_print frames_invoke
  frames_observe frames_open_w frames_f_write frames_os_path_exists
  frames_os_makedirs : driver.

Ltac frames_tac :=
  repeat first
    [ apply frames_bind; [| intros ?]
    | apply frames_when
    | apply frames_try_except
    | solve [auto with driver]
    | match goal with |- frames (if ?b then _ else _) => destruct b end ].

Lemma compile_code_frames (args : Args) : frames (compile_code args).
Proof. unfold compile_code, report_errors, run_program. frames_tac. Qed.

(** A run started with nothing printed yet prints the same as any other. *)
Lemma compile_code_prints (args : Args) (w : world) :
  compile_code args w =
  ((compile_code args (World "" (w_files w) (w_env w) (w_log w))).1,
   prefixed (w_stdout w) (compile_code args (World "" (w_files w) (w_env w) (w_log w))).2).
Proof.
  rewrite <- compile_code_frames. unfold prefixed; cbn.
  rewrite str_app_nil_r. now destruct w.
Qed.

(** *** Triples *)

Lemma hoare_bind {A B} P (m : M A) Q (f : A -> M B) R :
  hoare P m Q -> (forall a, hoare (Q a) (f a) R) -> hoare P (m ≫= f) R.
Proof.
  intros Hm Hf w HP. destruct (Hm w HP) as (a & w1 & E1 & HQ).
  destruct (Hf a w1 HQ) as (b & w2 & E2 & HR).
  exists b, w2. unfold mbind, M_bind. rewrite E1. auto.
Qed.

Lemma hoare_ret {A} (P : gmap string string -> env -> Prop) (a : A) :
  hoare P (mret a) (fun _ => P).
Proof. intros w HP. exists a, w. auto. Qed.

Lemma hoare_print (P : gmap string string -> env -> Prop) s :
  hoare P (print s) (fun _ => P).
Proof. intros w HP. eexists _, _. split; [reflexivity | exact HP]. Qed.

Lemma hoare_observe {A} (P : gmap string string -> env -> Prop) (g : env -> A) :
  hoare P (observe g) (fun a f e => a = g e /\ P f e).
Proof. intros w HP. eexists _, _. split; [reflexivity | auto]. Qed.

Lemma hoare_when (P : gmap string string -> env -> Prop) b (m : M unit) :
  hoare P m (fun _ => P) -> hoare P (when b m) (fun _ => P).
Proof. destruct b; [auto | intros _; apply hoare_ret]. Qed.

Lemma hoare_invoke (P : gmap string string -> env -> Prop) c
    (Q : gmap string string -> env -> Prop) :
  (forall f e, P f e ->
     exists v, r_result (ext c f e) = inr v
               /\ Q (r_files (ext c f e)) (r_env (ext c f e))) ->
  hoare P (invoke c) (fun _ => Q).
Proof.
  intros Hc w HP. destruct (Hc _ _ HP) as (v & E & HQ).
  unfold invoke. rewrite E. eexists _, _. split; [reflexivity | exact HQ].
Qed.

Lemma hoare_pre {A} (P P' : gmap string string -> env -> Prop) (m : M A) Q :
  (forall f e, P' f e -> P f e) -> hoare P m Q -> hoare P' m Q.
Proof. intros HP Hm w HP'. apply Hm, HP, HP'. Qed.

End Laws.

(** ** The gate on the backend *)


(** ** The error report *)

Lemma error_report_written {H : Host} (lexical syntax semantic : string) (w1 : world) :
  report_errors lexical syntax semantic w1 =
  (inr tt,
   World (w_stdout (report_errors lexical syntax semantic w1).2)
         (<[output_path := error_report (lexical, syntax, semantic)]> (w_files w1))
         (w_env w1) (w_log w1)).
Proof.
  unfold report_errors, error_report, section, when, mbind, M_bind, mret, M_ret,
    print, f_write, open_w, os_makedirs.
  destruct lexical, syntax, semantic; cbn;
    rewrite ?lookup_insert_eq, ?insert_insert_eq; cbn;
    rewrite ?lookup_insert_eq, ?insert_insert_eq; cbn;
    rewrite ?lookup_insert_eq, ?insert_insert_eq; cbn;
    rewrite ?str_app_nil_r, ?str_app_assoc; reflexivity.
Qed.

(** A run whose pipeline ends with a category in error: the report is
    written, the driver returns, the log stays as the pipeline left it. *)
Lemma failed_run {H : Host} (args : Args) (w w1 : world)
    (texts : string * string * string) :
  pipeline args w = (inr texts, w1) ->
  has_errors texts = true ->
  exists w2,
    compile_code args w = (inr tt, w2)
    /\ w_files w2 = <[output_path := error_report texts]> (w_files w1)
    /\ w_log w2 = w_log w1
    /\ genARM_count (calls_since w w2) = 0%nat.
Proof.
  intros Hp He.
  rewrite compile_code_pipeline. unfold mbind, M_bind. rewrite Hp.
  destruct texts as [[lx sy] se]. unfold conclude. rewrite He.
  rewrite error_report_written. eexists. split; [reflexivity|]. cbn.
  split; [reflexivity|]. split; [reflexivity|].
  destruct (only_run _ _ _ _ _ (pipeline_calls args) Hp) as (l1 & E1 & F1).
  unfold calls_since; cbn. rewrite E1, drop_app_length.
  apply genARM_count_none. eapply Forall_impl; [exact F1 | now intros ? [? ?]].
Qed.

(** C2. In every run whose pipeline ends with at least one category in
    error (a stripped text that differs from its sentinel), the driver
    returns after writing to [armv8_output.s] in the compiler's directory,
    replacing what the file held, the report made of the lexical, the syntax
    and the semantic section in this order, each present exactly when the
    stripped text of its category is not empty; nothing else changes in the
    file system after the pipeline, and the backend, which writes the
    assembly, is not invoked. *)
Theorem C2_error_report {H : Host} (args : Args) (w w1 : world)
    (texts : string * string * string) :
  pipeline args w = (inr texts, w1) ->
  has_errors texts = true ->
  exists w2,
    compile_code args w = (inr tt, w2)
    /\ w_files w2 = <[output_path := error_report texts]> (w_files w1)
    /\ w_files w2 !! output_path = Some (error_report texts)
    /\ w_log w2 = w_log w1
    /\ genARM_count (calls_since w w2) = 0%nat.
Proof.
  intros Hp He.
  destruct (failed_run args w w1 texts Hp He) as (w2 & Hrun & Hfiles & Hlog & Hn).
  exists w2. repeat split; try assumption.
  rewrite Hfiles. apply lookup_insert_eq.
Qed.

(** A source with a call of an undeclared function: the report holds the
    two sentinels and the semantic error. *)
Lemma C2_error_report_witness :
  let H := Toy.linux in
  let args := mkArgs "/src/a.c" false false false false false false in
  let w := Toy.start Toy.fresh "/src/a.c" "int x; foo(1,2);" in
  let texts := ("There is no lexical errors.", "There is no syntax error.",
                "#1 : Semantic Error! 'foo' is not defined.") in
  exists w2,
    compile_code args w = (inr tt, w2)
    /\ w_files w2 = <[output_path := error_report texts]> (w_files (pipeline args w).2)
    /\ w_files w2 !! output_path = Some (error_report texts)
    /\ w_log w2 = w_log (pipeline args w).2
    /\ genARM_count (calls_since w w2) = 0%nat.
Proof.
  intros H args w texts.
  apply (C2_error_report args w (pipeline args w).2 texts).
  - apply run_result. vm_compute. reflexivity.
  - vm_compute. reflexivity.
Defined.

(** ** The hand-off file is saved before the errors are looked at *)

(** C9. In every run that gets through the parse and the dumps asked for,
    the next thing done is the call of [save_output()], on the files and
    the outside state the dumps left and whatever the three error texts
    are; it is made once, after it come at most the backend and the launch
    of the interpreter, and the calls before it are none of these.  The
    run goes on in the files and the state the call left: when the call
    raises, the run ends there with its exception; when it returns, the
    three texts are read after it, and on a run with a category in error
    the file system at the end is the one [save_output()] left with the
    error report in [armv8_output.s], so that every other file holds what
    [save_output()] wrote to it. *)
Theorem C9_save_output_unconditional {H : Host} (args : Args) (w w0 : world) :
  front args w = (inr tt, w0) ->
  let r := ext save_output (w_files w0) (w_env w0) in
  let saved := World (w_stdout w0 +:+ r_printed r) (r_files r) (r_env r)
                     (w_log w0 ++ [save_output]) in
  let texts := (PyStr.strip (lexical_errors (r_env r)),
                PyStr.strip (syntax_errors (r_env r)),
                PyStr.strip (semantic_errors (r_env r))) in
  (exists rest,
     calls_since w0 (compile_code args w).2 = save_output :: rest
     /\ Forall (fun c => c = genARM \/ is_check_output c = true) rest
     /\ Forall (fun c => c <> save_output /\ c <> genARM /\ is_check_output c = false)
               (calls_since w w0))
  /\ (forall e, r_result r = inl e -> compile_code args w = (inl e, saved))
  /\ (forall v, r_result r = inr v ->
        pipeline args w = (inr texts, saved)
        /\ compile_code args w = conclude args texts saved
        /\ (has_errors texts = true ->
            exists w2,
              compile_code args w = (inr tt, w2)
              /\ w_files w2 = <[output_path := error_report texts]> (r_files r)
              /\ forall p, p <> output_path -> w_files w2 !! p = r_files r !! p)).
Proof.
  intros Hf r saved texts.
  assert (Hp : pipeline args w =
               match r_result r with
               | inl e => (inl e, saved)
               | inr _ => (inr texts, saved)
               end).
  { rewrite pipeline_front. unfold mbind, M_bind. rewrite Hf.
    unfold invoke, collect_errors, observe. fold r.
    destruct (r_result r); reflexivity. }
  assert (Hc : compile_code args w =
               match r_result r with
               | inl e => (inl e, saved)
               | inr _ => conclude args texts saved
               end).
  { rewrite compile_code_pipeline. unfold mbind, M_bind. rewrite Hp.
    destruct (r_result r); reflexivity. }
  split; [| split].
  - destruct (only_run _ _ _ _ _ (front_calls args) Hf) as (l0 & E0 & F0).
    rewrite (calls_since_app _ _ _ E0). rewrite Hc.
    destruct (r_result r) as [x|v].
    + exists []. unfold calls_since; cbn. rewrite drop_app_length. auto.
    + unfold conclude, texts.
      match goal with
      | |- context [if ?b then report_errors _ _ _ else _] => destruct b
      end.
      * match goal with |- context [report_errors ?a ?b ?c ?w1] =>
          destruct (report_errors_calls a b c w1) as (l2 & E2 & F2)
        end.
        exists l2. cbn in E2. rewrite <- app_assoc in E2.
        rewrite (calls_since_app _ _ _ E2). repeat split; auto.
        eapply Forall_impl; [exact F2 | now intros ? []].
      * match goal with |- context [succeed args ?w1] =>
          destruct (succeed_log args w1) as (l2 & E2 & F2)
        end.
        exists (genARM :: l2). cbn in E2. rewrite <- app_assoc in E2.
        rewrite (calls_since_app _ _ _ E2). repeat split; auto.
        constructor; [now left|].
        eapply Forall_impl; [exact F2 | intros c Hl; right; now apply launch_ok_check_output].
  - intros e He. now rewrite Hc, He.
  - intros v Hv. rewrite Hv in Hp, Hc. split; [exact Hp|]. split; [exact Hc|].
    intros He.
    destruct (failed_run args w saved texts Hp He) as (w2 & Hrun & Hfiles & _).
    exists w2. split; [exact Hrun|]. split; [exact Hfiles|].
    intros p Hne. rewrite Hfiles. now apply lookup_insert_ne.
Qed.

(** A run that fails with a lexical error, all dumps asked for: the
    hand-off file, which was not there, is written by [save_output()] and
    holds the quadruples when the run ends. *)
Lemma C9_save_output_unconditional_witness :
  let H := Toy.linux in
  let args := mkArgs "/src/a.c" false false true true true true in
  let w := Toy.start Toy.fresh "/src/a.c" "int @;" in
  let w0 := (front args w).2 in
  let r := ext save_output (w_files w0) (w_env w0) in
  let saved := World (w_stdout w0 +:+ r_printed r) (r_files r) (r_env r)
                     (w_log w0 ++ [save_output]) in
  let texts := (PyStr.strip (lexical_errors (r_env r)),
                PyStr.strip (syntax_errors (r_env r)),
                PyStr.strip (semantic_errors (r_env r))) in
  (w_files w0 !! "/app/output/output.txt" = None
   /\ r_files r !! "/app/output/output.txt" = Some "(SOURCE, int @;, , )"
   /\ texts = ("#1 : Lexical Error! Invalid input '@'.", "There is no syntax error.",
               "The input program is semantically correct.")
   /\ w_files (compile_code args w).2 !! "/app/output/output.txt"
      = Some "(SOURCE, int @;, , )")
  /\ pipeline args w = (inr texts, saved)
  /\ compile_code args w = conclude args texts saved
  /\ exists w2,
       compile_code args w = (inr tt, w2)
       /\ w_files w2 = <[output_path := error_report texts]> (r_files r)
       /\ forall p, p <> output_path -> w_files w2 !! p = r_files r !! p.
Proof.
  intros H args w w0 r saved texts.
  split; [repeat split; vm_compute; reflexivity|].
  subst texts saved r w0.
  assert (Hf : front args w = (inr tt, (front args w).2))
    by (apply run_result; vm_compute; reflexivity).
  pose proof (C9_save_output_unconditional args w _ Hf) as K.
  cbv zeta in K. destruct K as (_ & _ & K).
  destruct (K "") as (Kp & Kc & Ke); [vm_compute; reflexivity|].
  split; [exact Kp|]. split; [exact Kc|].
  apply Ke. vm_compute; reflexivity.
Defined.

(** ** Running the compiled program *)

Lemma compile_code_compiled {H : Host} (args : Args) (w w2 : world) :
  compiled args w w2 ->
  compile_code args w = when (run args) (run_program args) w2.
Proof.
  intros (texts & w1 & v & Hp & He & Hb).
  rewrite compile_code_pipeline. unfold mbind at 1, M_bind at 1. rewrite Hp.
  destruct texts as [[lx sy] se]. unfold conclude. rewrite He.
  rewrite succeed_backend. unfold mbind at 1, M_bind at 1. now rewrite Hb.
Qed.

Lemma tester_file_supported {H : Host} :
  platform_system = "Windows" \/ platform_system = "Linux" \/ platform_system = "Darwin" ->
  exists tester_file, tester_file_for platform_system = Some tester_file.
Proof. unfold tester_file_for. intros [-> | [-> | ->]]; cbn; eauto. Qed.

Lemma tester_file_unsupported {H : Host} :
  platform_system <> "Windows" -> platform_system <> "Linux" ->
  platform_system <> "Darwin" ->
  tester_file_for platform_system = None.
Proof.
  unfold tester_file_for. intros Hw Hl Hd.
  apply String.eqb_neq in Hw, Hl, Hd. now rewrite Hw, Hl, Hd.
Qed.

Ltac by_platform Ht :=
  unfold run_program, tester_file_for, launch in *;
  destruct (String.eqb platform_system "Windows");
  [| destruct (String.eqb platform_system "Linux");
     [| destruct (String.eqb platform_system "Darwin")]];
  try discriminate Ht; try (injection Ht as <-).

(** Lines 113: no interpreter for the platform. *)
Lemma run_program_unsupported {H : Host} (args : Args) (w : world) :
  tester_file_for platform_system = None ->
  run_program args w = (inl (RuntimeError "Unsupported operating system!"), announced w).
Proof. intros Ht. by_platform Ht. reflexivity. Qed.

(** Line 118: no file to run. *)
Lemma run_program_missing {H : Host} (args : Args) (w : world) tester_file :
  tester_file_for platform_system = Some tester_file ->
  w_files w !! output_file = None ->
  run_program args w = (inr tt, announced w).
Proof.
  intros Ht Hf. by_platform Ht;
    unfold mbind, M_bind, print, os_path_exists, mret, M_ret, when; cbn;
    rewrite Hf; reflexivity.
Qed.

(** Lines 141-142: the interpreter runs out of time. *)
Lemma run_program_timeout {H : Host} (args : Args) (w : world) tester_file r e :
  tester_file_for platform_system = Some tester_file ->
  is_Some (w_files w !! output_file) ->
  ext (launch args tester_file) (w_files w) (w_env w) = r ->
  r_result r = inl e ->
  exn_class e = "TimeoutExpired" ->
  run_program args w =
  (inr tt,
   World (w_stdout w +:+ "Executing compiled program" +:+ PyStr.nl +:+ r_printed r
          +:+ "RuntimeError: Execution timed out!" +:+ PyStr.nl)
         (r_files r) (r_env r) (w_log w ++ [launch args tester_file])).
Proof.
  intros Ht [x Hf] Hr He Hc. by_platform Ht;
    unfold mbind, M_bind, print, os_path_exists, mret, M_ret, when, try_except,
      observe, invoke; cbn;
    rewrite Hf; cbn; rewrite Hr, He, Hc; cbn;
    rewrite !str_app_assoc; reflexivity.
Qed.

(** C10. After a successful compilation on Windows, Linux or Darwin, with
    [run] set, when [output/output.txt] does not exist in the compiler's
    directory, the run ends normally having only announced the execution:
    the interpreter is not launched (the log stays as the backend left it)
    and nothing more is printed or raised. *)
Theorem C10_missing_output_skips_run {H : Host} (args : Args) (w w2 : world) :
  compiled args w w2 ->
  run args = true ->
  platform_system = "Windows" \/ platform_system = "Linux" \/ platform_system = "Darwin" ->
  w_files w2 !! output_file = None ->
  compile_code args w = (inr tt, announced w2)
  /\ calls_since w2 (compile_code args w).2 = [].
Proof.
  intros Hc Hr Hp Hf. rewrite (compile_code_compiled _ _ _ Hc), Hr.
  destruct (tester_file_supported Hp) as (t & Ht). cbn.
  rewrite (run_program_missing _ _ _ Ht Hf).
  split; [reflexivity|]. unfold calls_since; cbn. apply drop_all.
Qed.

(** A successful compilation on Darwin, where the code generator saved its
    output elsewhere and [/app/output/output.txt] does not exist. *)
Lemma C10_missing_output_skips_run_witness :
  let H := Toy.host "Darwin" "/app/output/quads.txt" in
  let args := mkArgs "/src/a.c" true false false false false false in
  let w := Toy.start Toy.fresh "/src/a.c" "int x; x = 1 + 2;" in
  let w2 := (backend (pipeline args w).2).2 in
  compile_code args w = (inr tt, announced w2)
  /\ calls_since w2 (compile_code args w).2 = [].
Proof.
  intros H args w w2.
  apply (C10_missing_output_skips_run args w w2).
  - exists ("There is no lexical errors.", "There is no syntax error.",
            "The input program is semantically correct."), (pipeline args w).2, "".
    split; [apply run_result; vm_compute; reflexivity|].
    split; [vm_compute; reflexivity|].
    apply run_result; vm_compute; reflexivity.
  - reflexivity.
  - right; right; reflexivity.
  - vm_compute; reflexivity.
Defined.

(** C7. After a successful compilation, with [run] set, on a platform that
    is not Windows, Linux or Darwin, the run ends by raising
    [RuntimeError("Unsupported operating system!")], having only
    announced the execution; the three error texts, the files and the log
    are as the backend left them. *)
Theorem C7_unsupported_platform {H : Host} (args : Args) (w w2 : world) :
  compiled args w w2 ->
  run args = true ->
  platform_system <> "Windows" ->
  platform_system <> "Linux" ->
  platform_system <> "Darwin" ->
  compile_code args w
  = (inl (RuntimeError "Unsupported operating system!"), announced w2)
  /\ diagnostics (compile_code args w).2 = diagnostics w2
  /\ w_files (compile_code args w).2 = w_files w2
  /\ calls_since w2 (compile_code args w).2 = [].
Proof.
  intros Hc Hr Hw Hl Hd. rewrite (compile_code_compiled _ _ _ Hc), Hr. cbn.
  rewrite (run_program_unsupported _ _ (tester_file_unsupported Hw Hl Hd)).
  repeat split. unfold calls_since; cbn. apply drop_all.
Qed.

(** A successful compilation on FreeBSD. *)
Lemma C7_unsupported_platform_witness :
  let H := Toy.host "FreeBSD" "/app/output/output.txt" in
  let args := mkArgs "/src/a.c" true false false false false false in
  let w := Toy.start Toy.fresh "/src/a.c" "int x; x = 1 + 2;" in
  let w2 := (backend (pipeline args w).2).2 in
  compile_code args w
  = (inl (RuntimeError "Unsupported operating system!"), announced w2)
  /\ diagnostics (compile_code args w).2 = diagnostics w2
  /\ w_files (compile_code args w).2 = w_files w2
  /\ calls_since w2 (compile_code args w).2 = [].
Proof.
  intros H args w w2.
  apply (C7_unsupported_platform args w w2).
  - exists ("There is no lexical errors.", "There is no syntax error.",
            "The input program is semantically correct."), (pipeline args w).2, "".
    split; [apply run_result; vm_compute; reflexivity|].
    split; [vm_compute; reflexivity|].
    apply run_result; vm_compute; reflexivity.
  - reflexivity.
  - vm_compute; discriminate.
  - vm_compute; discriminate.
  - vm_compute; discriminate.
Defined.

Lemma compile_code_calls {H : Host} (args : Args) :
  only (fun c => is_check_output c = true -> launch_ok c) (compile_code args).
Proof.
  intros w. rewrite compile_code_pipeline. revert w.
  apply only_bind.
  - eapply only_mono; [| apply pipeline_calls].
    intros c [_ E] E'. rewrite E in E'. discriminate.
  - intros [[lx sy] se]. unfold conclude.
    destruct (has_errors (lx, sy, se)).
    + eapply only_mono; [| apply report_errors_calls]. now intros ? [].
    + unfold succeed.
      apply only_bind; [apply only_print | intros _].
      apply only_bind; [apply only_invoke; discriminate | intros _].
      apply only_when. eapply only_mono; [| apply run_program_calls]. auto.
Qed.

(** C6. Every launch of the interpreter by a run has the timeout 10 and,
    exactly when the platform is Linux, a [preexec_fn] that sets the
    address-space limit of the child to 50 * 2^20 bytes.  When, after a
    successful compilation with [run] set, the launch raises
    [TimeoutExpired], the run prints
    [RuntimeError: Execution timed out!] and returns normally, with the
    backend invoked once by then. *)
Theorem C6_interpreter_limits {H : Host} (args : Args) (w : world) :
  (forall c, In c (calls_since w (compile_code args w).2) ->
     is_check_output c = true ->
     exists tester_file cwd stderr,
       c = check_output tester_file cwd stderr 10
             (if String.eqb platform_system "Linux"
              then Some (setrlimit_RLIMIT_AS (50 * 2 ^ 20) (50 * 2 ^ 20)) else None))
  /\ limit_virtual_memory = setrlimit_RLIMIT_AS (50 * 2 ^ 20) (50 * 2 ^ 20)
  /\ (forall w2 tester_file e,
        compiled args w w2 ->
        run args = true ->
        tester_file_for platform_system = Some tester_file ->
        is_Some (w_files w2 !! output_file) ->
        let r := ext (launch args tester_file) (w_files w2) (w_env w2) in
        r_result r = inl e ->
        exn_class e = "TimeoutExpired" ->
        compile_code args w =
        (inr tt,
         World (w_stdout w2 +:+ "Executing compiled program" +:+ PyStr.nl +:+ r_printed r
                +:+ "RuntimeError: Execution timed out!" +:+ PyStr.nl)
               (r_files r) (r_env r) (w_log w2 ++ [launch args tester_file]))
        /\ genARM_count (calls_since w (compile_code args w).2) = 1%nat).
Proof.
  split; [| split; [reflexivity|]].
  - intros c Hin Hc.
    destruct (compile_code_calls args w) as (l & E & F).
    rewrite (calls_since_app _ _ _ E) in Hin.
    rewrite Forall_forall in F. apply F; [|exact Hc].
    now apply list_elem_of_In.
  - intros w2 tester_file e Hc Hr Ht Hf r He Hx.
    assert (Hrun : compile_code args w =
      (inr tt,
       World (w_stdout w2 +:+ "Executing compiled program" +:+ PyStr.nl +:+ r_printed r
              +:+ "RuntimeError: Execution timed out!" +:+ PyStr.nl)
             (r_files r) (r_env r) (w_log w2 ++ [launch args tester_file]))).
    { rewrite (compile_code_compiled _ _ _ Hc), Hr. cbn.
      now apply run_program_timeout with (e := e). }
    split; [exact Hrun|].
    rewrite Hrun. cbn [snd].
    destruct Hc as (texts & w1 & v & Hp & Herr & Hb).
    destruct (only_run _ _ _ _ _ (pipeline_calls args) Hp) as (l1 & E1 & F1).
    assert (E2 : w_log w2 = w_log w1 ++ [genARM]).
    { revert Hb. unfold backend, mbind, M_bind, print, invoke; cbn.
      intros [= _ <-]. reflexivity. }
    unfold calls_since; cbn. rewrite E2, E1, <- !app_assoc, drop_app_length.
    rewrite !genARM_count_app.
    rewrite genARM_count_none
      by (eapply Forall_impl; [exact F1 | now intros ? [? ?]]).
    reflexivity.
Qed.

(** An endless loop on Linux: the interpreter is stopped after the timeout. *)
Lemma C6_interpreter_limits_witness :
  let H := Toy.linux in
  let args := mkArgs "/src/a.c" true false false false false false in
  let w := Toy.start Toy.fresh "/src/a.c" "void main(void) { while(1) { } }" in
  let w2 := (backend (pipeline args w).2).2 in
  let tester_file := "/app/interpreter/tester_Linux.out" in
  let r := ext (launch args tester_file) (w_files w2) (w_env w2) in
  compile_code args w =
  (inr tt,
   World (w_stdout w2 +:+ "Executing compiled program" +:+ PyStr.nl +:+ r_printed r
          +:+ "RuntimeError: Execution timed out!" +:+ PyStr.nl)
         (r_files r) (r_env r) (w_log w2 ++ [launch args tester_file]))
  /\ genARM_count (calls_since w (compile_code args w).2) = 1%nat.
Proof.
  intros H args w w2 tester_file r.
  apply (proj2 (proj2 (C6_interpreter_limits args w)) w2 tester_file
           (Exn "TimeoutExpired" "Command 'tester' timed out after 10 seconds")).
  - exists ("There is no lexical errors.", "There is no syntax error.",
            "The input program is semantically correct."), (pipeline args w).2, "".
    split; [apply run_result; vm_compute; reflexivity|].
    split; [vm_compute; reflexivity|].
    apply run_result; vm_compute; reflexivity.
  - reflexivity.
  - vm_compute; reflexivity.
  - vm_compute. eexists. reflexivity.
  - vm_compute; reflexivity.
  - reflexivity.
Defined.

(** ** The handler *)

Lemma api_compile_total {H : Host} (get_json : exn + json) (w : world) :
  exists resp w', api_compile get_json w = (inr resp, w').
Proof.
  unfold api_compile, try_except_Exception.
  destruct (api_try get_json w) as [[e|resp] w']; cbn; eauto.
Qed.

Lemma api_compile_except {H : Host} (get_json : exn + json) (w w' : world) (e : exn) :
  api_try get_json w = (inl e, w') ->
  api_compile get_json w
  = (inr (Response 500 [("success", JBool false); ("error", JStr (exn_str e))]), w').
Proof. intros E. unfold api_compile, try_except_Exception. now rewrite E. Qed.

Lemma api_compile_returns {H : Host} (get_json : exn + json) (w w' : world) resp :
  api_try get_json w = (inr resp, w') ->
  api_compile get_json w = (inr resp, w').
Proof. intros E. unfold api_compile, try_except_Exception. now rewrite E. Qed.

(** The [try] block on a body that is an object whose [code] is a string:
    the compiler runs on the temporary file, then the file is removed, if
    it is still there. *)
Lemma api_try_run {H : Host} (d : list (string * json)) (text : string) (w : world) :
  default (JStr "") (assoc "code" d) = JStr text ->
  let source_path := mkstemp ".c" (w_files w) (w_env w) in
  let quiet := World "" (<[source_path := text]> (w_files w)) (w_env w) (w_log w) in
  api_try (inr (JDict d)) w =
  match compile_code (api_args source_path) quiet with
  | (inr _, w1) =>
      match w_files w1 !! source_path with
      | Some _ =>
          (inr (Response 200 [("success", JBool true); ("output", JStr (w_stdout w1))]),
           World (w_stdout w) (delete source_path (w_files w1)) (w_env w1) (w_log w1))
      | None =>
          (inl (file_not_found source_path),
           World (w_stdout w) (w_files w1) (w_env w1) (w_log w1))
      end
  | (inl e, w1) => (inl e, World (w_stdout w) (w_files w1) (w_env w1) (w_log w1))
  end.
Proof.
  intros Hcode. cbn zeta.
  unfold api_try, mbind, M_bind, mret, M_ret, data_get_code, write_temporary_file,
    redirect_stdout, os_remove.
  rewrite Hcode. cbn.
  destruct (compile_code _ _) as [[e|[]] w1]; cbn; [reflexivity|].
  destruct (w_files w1 !! _); reflexivity.
Qed.

(** C5. The handler always answers, it never lets an exception through:
    whenever anything in the [try] block raises, the answer is status 500
    with [success] false and [error] the text of the exception.  For a
    body that is an object whose [code] (the empty string when the key is
    missing) is a string, it writes the text to a temporary file and runs
    [compile_code] on it with [run], [verbose] and the four dump options
    off, [sys.stdout] being a fresh buffer, so that the run prints there
    the text it appends to [sys.stdout] when it is not redirected.  When
    the run returns and the temporary file is still there, the file is
    removed and the answer is status 200 with [success] true and [output]
    the whole text the run printed; when the run returns and the file is
    gone, [os.remove] raises and the answer is status 500 with the text of
    its [FileNotFoundError]; when the run raises, the answer is status 500
    with the text of its exception. *)
Theorem C5_api_compile {H : Host} (get_json : exn + json) (w : world) :
  (exists resp w', api_compile get_json w = (inr resp, w'))
  /\ (forall e w',
        api_try get_json w = (inl e, w') ->
        api_compile get_json w
        = (inr (Response 500 [("success", JBool false); ("error", JStr (exn_str e))]), w'))
  /\ (forall d text,
        get_json = inr (JDict d) ->
        default (JStr "") (assoc "code" d) = JStr text ->
        let source_path := mkstemp ".c" (w_files w) (w_env w) in
        let args := mkArgs source_path false false false false false false in
        let files := <[source_path := text]> (w_files w) in
        let terminal := World (w_stdout w) files (w_env w) (w_log w) in
        let quiet := World "" files (w_env w) (w_log w) in
        compile_code args terminal
        = ((compile_code args quiet).1, prefixed (w_stdout w) (compile_code args quiet).2)
        /\ api_compile get_json w =
           match compile_code args quiet with
           | (inr _, w1) =>
               match w_files w1 !! source_path with
               | Some _ =>
                   (inr (Response 200 [("success", JBool true);
                                       ("output", JStr (w_stdout w1))]),
                    World (w_stdout w) (delete source_path (w_files w1))
                          (w_env w1) (w_log w1))
               | None =>
                   (inr (Response 500 [("success", JBool false);
                                       ("error", JStr (no_such_file source_path))]),
                    World (w_stdout w) (w_files w1) (w_env w1) (w_log w1))
               end
           | (inl e, w1) =>
               (inr (Response 500 [("success", JBool false);
                                   ("error", JStr (exn_str e))]),
                World (w_stdout w) (w_files w1) (w_env w1) (w_log w1))
           end).
Proof.
  split; [apply api_compile_total|].
  split; [intros e w'; apply api_compile_except|].
  intros d text -> Hcode source_path args files terminal quiet.
  split; [apply (compile_code_prints args terminal)|].
  pose proof (api_try_run d text w Hcode) as Ht. cbn zeta in Ht.
  fold source_path files quiet in Ht. change (api_args source_path) with args in Ht.
  destruct (compile_code args quiet) as [[e|u] w1].
  - now apply api_compile_except.
  - destruct (w_files w1 !! source_path).
    + now apply api_compile_returns.
    + now apply (api_compile_except _ _ _ (file_not_found source_path)).
Qed.

(** A body without an object, and a body whose program compiles. *)
Lemma C5_api_compile_witness :
  let H := Toy.linux in
  let w := World "" ∅ Toy.fresh [] in
  let d := [("code", JStr "int x; x = 1 + 2;")] in
  let source_path := mkstemp ".c" (w_files w) (w_env w) in
  let args := mkArgs source_path false false false false false false in
  let files := <[source_path := "int x; x = 1 + 2;"]> (w_files w) in
  let terminal := World (w_stdout w) files (w_env w) (w_log w) in
  let quiet := World "" files (w_env w) (w_log w) in
  api_compile (inr JNull) w
  = (inr (Response 500 [("success", JBool false);
                        ("error", JStr "'NoneType' object has no attribute 'get'")]), w)
  /\ compile_code args terminal
     = ((compile_code args quiet).1, prefixed (w_stdout w) (compile_code args quiet).2)
  /\ api_compile (inr (JDict d)) w =
     match compile_code args quiet with
     | (inr _, w1) =>
         match w_files w1 !! source_path with
         | Some _ =>
             (inr (Response 200 [("success", JBool true); ("output", JStr (w_stdout w1))]),
              World (w_stdout w) (delete source_path (w_files w1)) (w_env w1) (w_log w1))
         | None =>
             (inr (Response 500 [("success", JBool false);
                                 ("error", JStr (no_such_file source_path))]),
              World (w_stdout w) (w_files w1) (w_env w1) (w_log w1))
         end
     | (inl e, w1) =>
         (inr (Response 500 [("success", JBool false); ("error", JStr (exn_str e))]),
          World (w_stdout w) (w_files w1) (w_env w1) (w_log w1))
     end.
Proof.
  intros H w d source_path args files terminal quiet. split.
  - apply (proj1 (proj2 (C5_api_compile (inr JNull) w))
             (AttributeError "'NoneType' object has no attribute 'get'") w).
    reflexivity.
  - apply (proj2 (proj2 (C5_api_compile (inr (JDict d)) w)) d "int x; x = 1 + 2;");
      reflexivity.
Defined.

(** The program compiles and is answered with status 200; with a parser
    that removes the file it has read, the same request is answered with
    status 500, the compiler having returned. *)
Example handler_answers :
  (api_compile (H := Toy.linux) (inr (JDict [("code", JStr "int x; x = 1 + 2;")]))
     (World (H := Toy.linux) "" ∅ Toy.fresh [])).1
  = inr (Response 200
           [("success", JBool true);
            ("output", JStr ("Compiling /tmp/tmpq3x9.c" +:+ PyStr.nl
                             +:+ "Compilation took 0.000001 s" +:+ PyStr.nl
                             +:+ "Compilation successful!" +:+ PyStr.nl))])
  /\ (compile_code (H := Scripted.consuming) (api_args "/tmp/tmpq3x9.c")
        (World (H := Scripted.consuming) "" {[ "/tmp/tmpq3x9.c" := "int x; x = 1 + 2;" ]}
               tt [])).1 = inr tt
  /\ (api_compile (H := Scripted.consuming)
        (inr (JDict [("code", JStr "int x; x = 1 + 2;")]))
        (World (H := Scripted.consuming) "" ∅ tt [])).1
     = inr (Response 500
              [("success", JBool false);
               ("error", JStr "[Errno 2] No such file or directory: '/tmp/tmpq3x9.c'")]).
Proof. repeat split; vm_compute; reflexivity. Qed.

(** C8. When the submitted program compiles with diagnostics (the pipeline
    ends with a category in error) and nothing raises in the [try] block
    of the handler, the answer has status 200 and [success] true, with the
    diagnostics in [output]; the backend was not invoked. *)
Theorem C8_success_flag_on_diagnostics {H : Host}
    (d : list (string * json)) (text : string) (w w1 : world)
    (texts : string * string * string) :
  default (JStr "") (assoc "code" d) = JStr text ->
  let source_path := mkstemp ".c" (w_files w) (w_env w) in
  let args := mkArgs source_path false false false false false false in
  let quiet := World "" (<[source_path := text]> (w_files w)) (w_env w) (w_log w) in
  pipeline args quiet = (inr texts, w1) ->
  has_errors texts = true ->
  (forall e, (api_try (inr (JDict d)) w).1 <> inl e) ->
  exists w',
    api_compile (inr (JDict d)) w
    = (inr (Response 200 [("success", JBool true);
                          ("output", JStr (w_stdout (compile_code args quiet).2))]), w')
    /\ genARM_count (calls_since w w') = 0%nat.
Proof.
  intros Hcode source_path args quiet Hp He Hquiet.
  destruct (failed_run args quiet w1 texts Hp He) as (w2 & Hrun & _ & Hlog & Hn).
  pose proof (api_try_run d text w Hcode) as Ht. cbn zeta in Ht.
  fold source_path quiet in Ht. change (api_args source_path) with args in Ht.
  rewrite Hrun in Ht |- *. cbn [snd].
  destruct (w_files w2 !! source_path).
  - eexists. split; [apply api_compile_returns; exact Ht|].
    unfold calls_since in *; cbn in *. exact Hn.
  - exfalso. apply (Hquiet (file_not_found source_path)). now rewrite Ht.
Qed.

(** A program with a lexical error, sent to the handler. *)
Lemma C8_success_flag_on_diagnostics_witness :
  let H := Toy.linux in
  let d := [("code", JStr "int @;")] in
  let w := World "" ∅ Toy.fresh [] in
  let source_path := mkstemp ".c" (w_files w) (w_env w) in
  let args := mkArgs source_path false false false false false false in
  let quiet := World "" (<[source_path := "int @;"]> (w_files w)) (w_env w) (w_log w) in
  exists w',
    api_compile (inr (JDict d)) w
    = (inr (Response 200 [("success", JBool true);
                          ("output", JStr (w_stdout (compile_code args quiet).2))]), w')
    /\ genARM_count (calls_since w w') = 0%nat.
Proof.
  intros H d w source_path args quiet.
  apply (C8_success_flag_on_diagnostics d "int @;" w (pipeline args quiet).2
           ("#1 : Lexical Error! Invalid input '@'.", "There is no syntax error.",
            "The input program is semantically correct.")).
  - reflexivity.
  - apply run_result. vm_compute. reflexivity.
  - vm_compute. reflexivity.
  - intros e. vm_compute. discriminate.
Defined.

(** ** Two runs on the same source

    The modules are those of [pipeline_host]: the state that outlives a run
    is the state of the two managers, the parser object of the last run and
    the files. *)

Section Idempotence.
Variables symtab memory pstate : Type.
Variable symtab0 : symtab.
Variable memory0 : memory.
Variable new_parser : string -> pstate.
Variable run_parse : pstate -> symtab -> memory -> pstate * symtab * memory.
Variables lex_text syn_text sem_text quadruples : pstate -> string.
Variable dump_path : call -> string.
Variable dump_text : call -> pstate -> symtab -> string.
Variable quad_path : string.
Variable lower : string -> memory -> string.
Variable interpreter : gmap string string -> exn + string.
Variables (plat dir : string) (sep : ascii).
Variable tmp_name : string -> gmap string string -> string.

#[local] Instance the_pipeline : Host :=
  pipeline_host symtab memory pstate symtab0 memory0 new_parser run_parse
    lex_text syn_text sem_text quadruples dump_path dump_text quad_path lower
    interpreter plat dir sep tmp_name.

Abbreviation penv := (pipeline_env symtab memory pstate).
Abbreviation parse_of := (parsed symtab memory pstate symtab0 memory0 new_parser run_parse).
Abbreviation settled_on := (settled symtab memory pstate symtab0 memory0 new_parser run_parse).
Abbreviation texts_from :=
  (texts_of symtab memory pstate symtab0 memory0 new_parser run_parse
            lex_text syn_text sem_text).

Ltac invoke_step :=
  apply hoare_invoke; intros f e; cbn [ext the_pipeline pipeline_host];
  unfold pipeline_ext, with_parser, returns, raises.

(** Both managers are reset and a new parser is built and run: what was
    there before does not matter. *)
Lemma front_settles (args : Args) (text : string) :
  hoare (H := the_pipeline) (fun f _ => f !! source_file args = Some text)
        (front args)
        (fun _ _ (e : penv) => settled_on text e).
Proof.
  unfold front.
  eapply hoare_bind; [apply hoare_print | intros ?; cbv beta].
  eapply hoare_bind with
    (Q := fun _ (f : gmap string string) (e : penv) => f !! source_file args = Some text /\ e_symtab e = symtab0).
  { invoke_step. intros Hs. eexists. cbn. eauto. }
  intros ?; cbv beta.
  eapply hoare_bind with
    (Q := fun _ (f : gmap string string) (e : penv) => f !! source_file args = Some text
                       /\ e_symtab e = symtab0 /\ e_memory e = memory0).
  { invoke_step. intros [Hs Ht]. eexists. cbn. eauto. }
  intros ?; cbv beta.
  eapply hoare_bind with
    (Q := fun _ (f : gmap string string) (e : penv) => e_symtab e = symtab0 /\ e_memory e = memory0
                       /\ e_parser e = Some (new_parser text)).
  { invoke_step. intros (Hs & Ht & Hm). rewrite Hs. eexists. cbn. eauto. }
  intros ?; cbv beta.
  eapply hoare_bind; [apply hoare_observe | intros start].
  eapply hoare_bind with (Q := fun _ _ (e : penv) => settled_on text e).
  { invoke_step. intros (_ & Ht & Hm & Hp). rewrite Hp, Ht, Hm.
    unfold settled, parsed.
    destruct (run_parse (new_parser text) symtab0 memory0) as [[p' s'] m'].
    eexists. cbn. eauto. }
  intros ?; cbv beta.
  assert (Hdump : forall c,
    (if is_check_output c then False else True) ->
    c <> SymbolTableManager_init -> c <> MemoryManager_init ->
    (forall p, c <> Parser p) -> c <> parse -> c <> save_output -> c <> genARM ->
    hoare (H := the_pipeline) (fun _ (e : penv) => settled_on text e) (invoke c) (fun _ _ (e : penv) => settled_on text e)).
  { intros c H1 H2 H3 H4 H5 H6 H7. invoke_step. intros Hs.
    pose proof Hs as (_ & _ & Hp). rewrite Hp.
    destruct c; try contradiction; try (exfalso; eapply H4; reflexivity);
      eexists; cbn; eauto. }
  eapply hoare_bind; [apply hoare_observe | intros stop].
  eapply hoare_pre with (P := fun _ (e : penv) => settled_on text e); [now intros f e [_ ?]|].
  eapply hoare_bind; [apply hoare_print | intros ?; cbv beta].
  repeat (eapply hoare_bind;
          [ apply hoare_when;
            repeat (eapply hoare_bind; [apply Hdump; (exact I || discriminate) | intros ?; cbv beta]);
            apply hoare_ret
          | intros ?; cbv beta ]).
  apply hoare_when.
  repeat (eapply hoare_bind; [apply Hdump; (exact I || discriminate) | intros ?; cbv beta]).
  apply hoare_ret.
Qed.

(** The pipeline on a source file that holds [text] ends with the texts
    of that parse, and with its quadruples in the hand-off file. *)
Lemma pipeline_settles (args : Args) (text : string) :
  hoare (H := the_pipeline) (fun f _ => f !! source_file args = Some text)
        (pipeline args)
        (fun texts f (e : penv) =>
           texts = texts_from text /\ settled_on text e
           /\ f !! quad_path = Some (quadruples (parse_of text).1.1)).
Proof.
  unfold pipeline.
  eapply hoare_bind; [apply front_settles | intros ?; cbv beta].
  eapply hoare_bind with
    (Q := fun _ (f : gmap string string) (e : penv) =>
            settled_on text e /\ f !! quad_path = Some (quadruples (parse_of text).1.1)).
  { invoke_step. intros Hs. pose proof Hs as (_ & _ & Hp). rewrite Hp.
    eexists. cbn. split; [reflexivity|]. split; [exact Hs | apply lookup_insert_eq]. }
  intros ?; cbv beta.
  intros w [Hs Hq]. eexists _, _. split; [reflexivity|].
  split; [| auto].
  destruct Hs as (_ & _ & Hp).
  cbn [lexical_errors syntax_errors semantic_errors the_pipeline pipeline_host].
  unfold parser_text, texts_of. now rewrite Hp.
Qed.

(** Running the program changes neither the files nor the parser object. *)
Lemma run_program_keeps (args : Args) (w : world) :
  w_files (when (run args) (run_program args) w).2 = w_files w
  /\ e_parser (w_env (when (run args) (run_program args) w).2) = e_parser (w_env w).
Proof.
  destruct (run args); [| now cbn].
  unfold when, run_program.
  destruct (String.eqb platform_system "Windows");
    [| destruct (String.eqb platform_system "Linux");
       [| destruct (String.eqb platform_system "Darwin")]];
    unfold mbind, M_bind, mret, M_ret, raise, print, os_path_exists, try_except,
      observe, invoke; cbn;
    try (split; reflexivity);
    destruct (bool_decide _); cbn; try (split; reflexivity);
    destruct (interpreter (w_files w)) as [x|out]; cbn; try (split; reflexivity);
    destruct (String.eqb (exn_class x) "TimeoutExpired"); cbn; split; reflexivity.
Qed.

(** What a run leaves, by the text of the source file alone: the three
    error texts of the parse, and in [armv8_output.s] the error report or
    the assembly. *)
Lemma run_outcome (args : Args) (text : string) (w : world) :
  w_files w !! source_file args = Some text ->
  diagnostics (compile_code args w).2
  = (lex_text (parse_of text).1.1, syn_text (parse_of text).1.1, sem_text (parse_of text).1.1)
  /\ w_files (compile_code args w).2 !! output_path
     = Some (if has_errors (texts_from text) then error_report (texts_from text)
             else lower (quadruples (parse_of text).1.1) (parse_of text).2).
Proof.
  intros Hsrc.
  destruct (pipeline_settles args text w Hsrc) as (texts & w1 & Hp & -> & Hs & Hq).
  assert (E : compile_code args w = conclude args (texts_from text) w1)
    by (rewrite compile_code_pipeline; unfold mbind, M_bind; now rewrite Hp).
  rewrite E. clear E.
  unfold conclude, texts_of at 1 3. cbv iota beta zeta.
  fold (texts_from text).
  destruct Hs as (Hsym & Hmem & Hpar).
  assert (Hd : forall e : penv, e_parser e = e_parser (w_env w1) ->
    (parser_text _ _ _ lex_text e, parser_text _ _ _ syn_text e,
     parser_text _ _ _ sem_text e)
    = (lex_text (parse_of text).1.1, syn_text (parse_of text).1.1,
       sem_text (parse_of text).1.1)).
  { intros e He. unfold parser_text. now rewrite He, Hpar. }
  destruct (has_errors (texts_from text)).
  - rewrite error_report_written.
    split; [apply Hd; reflexivity | apply lookup_insert_eq].
  - unfold succeed, mbind, M_bind, print, invoke.
    cbn [ext the_pipeline pipeline_host fst snd w_files w_env w_log w_stdout].
    unfold pipeline_ext. rewrite Hq. unfold returns.
    cbn [r_result r_files r_env r_printed].
    match goal with |- context [when _ _ ?w2] =>
      destruct (run_program_keeps args w2) as [Hf He]
    end.
    split.
    + apply Hd. rewrite He. reflexivity.
    + rewrite Hf. cbn [w_files]. rewrite Hmem. apply lookup_insert_eq.
Qed.

(** C3. Two runs of [compile_code] on the same source file, the second
    in the world the first has left (its managers, its parser object, its
    files), the source file still holding the same text.  Each run resets
    both managers and builds a new parser before [parse()], so both leave
    the same three error texts and the same content in [armv8_output.s],
    the assembly or the error report. *)
Theorem C3_runs_agree (args : Args) (text : string) (w : world) :
  w_files w !! source_file args = Some text ->
  w_files (compile_code args w).2 !! source_file args = Some text ->
  let first := (compile_code args w).2 in
  let second := (compile_code args first).2 in
  diagnostics second = diagnostics first
  /\ w_files second !! output_path = w_files first !! output_path.
Proof.
  intros H1 H2. cbv zeta.
  destruct (run_outcome args text w H1) as [D1 F1].
  destruct (run_outcome args text _ H2) as [D2 F2].
  rewrite D2, F2, D1, F1. auto.
Qed.

End Idempotence.

(** Two runs of the small instance on a program without errors. *)
Lemma C3_runs_agree_witness :
  let H := Toy.linux in
  let args := mkArgs "/src/a.c" true false true false true true in
  let w := Toy.start Toy.fresh "/src/a.c" "int x; x = 1 + 2;" in
  let first := (compile_code args w).2 in
  let second := (compile_code args first).2 in
  diagnostics second = diagnostics first
  /\ w_files second !! output_path = w_files first !! output_path.
Proof.
  intros H args w.
  apply (C3_runs_agree nat nat Toy.pstate 0%nat 0%nat Toy.new_parser Toy.run_parse
           (fun p => p.2.1.1) (fun p => p.2.1.2) (fun p => p.2.2) Toy.quadruples
           Toy.dump_path Toy.dump_text "/app/output/output.txt" Toy.lower
           (Toy.interpreter "/app/output/output.txt")
           "Linux" "/app" "/"%char (fun suffix _ => "/tmp/tmpq3x9" +:+ suffix)
           args "int x; x = 1 + 2;" w).
  - vm_compute. reflexivity.
  - vm_compute. reflexivity.
Defined.

(** ** The filter on the interpreter's output *)

Lemma comprehension_fold (lines acc : list string) :
  fold_left comprehension_step lines acc
  = acc ++ map marker_stripped (List.filter begins_with_marker lines).
Proof.
  revert acc. induction lines as [|line lines IH]; intros acc; cbn.
  - now rewrite app_nil_r.
  - rewrite IH. unfold comprehension_step, begins_with_marker.
    destruct (PyStr.startswith line marker); cbn; [|reflexivity].
    now rewrite <- app_assoc.
Qed.

Lemma prefix_contains (sub s : string) :
  String.prefix sub s = true -> PyStr.contains sub s = true.
Proof. destruct s; cbn; intros ->; reflexivity. Qed.

(** C4, as the code has it.  Without [verbose], what is displayed is made
    of the lines of the interpreter's output that begin with [PRINT], in
    their order, each with every occurrence of [PRINT] removed (from the
    left, not overlapping) and then the blanks at both ends, joined by
    newlines; a line that does not begin with [PRINT] is left out, so every
    line without [PRINT] is.  With [verbose] the output is displayed as it
    is. *)
Theorem C4_displayed_output (tester_output : string) :
  displayed_output false tester_output
  = PyStr.join PyStr.nl
      (map (fun line => PyStr.strip (PyStr.replace line "PRINT" ""))
           (List.filter (fun line => PyStr.startswith line "PRINT")
                        (PyStr.splitlines tester_output)))
  /\ (forall line, implb (begins_with_marker line) (carries_marker line) = true)
  /\ displayed_output true tester_output = tester_output.
Proof.
  split; [| split; [| reflexivity]].
  - unfold displayed_output, marked_lines. cbn [negb].
    now rewrite comprehension_fold.
  - intros line. unfold begins_with_marker, carries_marker, PyStr.startswith.
    destruct (String.prefix marker line) eqn:E; [|reflexivity].
    cbn. now apply prefix_contains.
Qed.

(** C4 as it is stated fails: a line with [PRINT] inside it carries the
    marker, and is not displayed. *)
Lemma C4_line_with_marker_inside :
  carries_marker "x = PRINT 7" = true
  /\ PyStr.splitlines "x = PRINT 7" = ["x = PRINT 7"]
  /\ displayed_output false "x = PRINT 7" = ""
  /\ displayed_as_claimed "x = PRINT 7" = "x =  7"
  /\ displayed_output false "x = PRINT 7" <> displayed_as_claimed "x = PRINT 7".
Proof. repeat split; try reflexivity. vm_compute. discriminate. Qed.

Example displayed_removes_every_marker :
  displayed_output false "PRINT a PRINT b" = "a  b".
Proof. reflexivity. Qed.

(** * Further properties of the driver *)

(** ** The order of the calls *)

Section TraceLaws.
Context {H : Host}.

Lemma follows_ret {A} (a : A) : follows (mret a) [].
Proof. intros w. cbn. now rewrite app_nil_r. Qed.

Lemma follows_print s : follows (print s) [].
Proof. intros w. cbn. now rewrite app_nil_r. Qed.

Lemma follows_observe {A} (g : env -> A) : follows (observe g) [].
Proof. intros w. cbn. now rewrite app_nil_r. Qed.

Lemma follows_invoke c : follows (invoke c) [c].
Proof.
  intros w. unfold invoke. cbn.
  destruct (r_result _); [| reflexivity].
  exists [], c, []. auto.
Qed.

Lemma follows_bind {A B} (m : M A) (f : A -> M B) p1 p2 :
  follows m p1 -> (forall a, follows (f a) p2) -> follows (m ≫= f) (p1 ++ p2).
Proof.
  intros Hm Hf w. specialize (Hm w). unfold mbind, M_bind.
  destruct (m w) as [[e|a] w1]; cbn in *.
  - destruct Hm as (l & c & rest & -> & E).
    exists l, c, (rest ++ p2). split; [| exact E].
    now rewrite <- app_assoc.
  - specialize (Hf a w1). destruct (f a w1) as [[e|b] w2]; cbn in *.
    + destruct Hf as (l & c & rest & -> & E).
      exists (p1 ++ l), c, rest. rewrite E, Hm, <- !app_assoc. auto.
    + now rewrite Hf, Hm, <- app_assoc.
Qed.

Lemma follows_when b (m : M unit) p :
  follows m p -> follows (when b m) (if b then p else []).
Proof. destruct b; [auto | intros _; apply follows_ret]. Qed.

Lemma follows_front (args : Args) :
  follows (front args)
    ([SymbolTableManager_init; MemoryManager_init; Parser (source_file args); parse]
     ++ dump_calls args).
Proof.
  unfold front, dump_calls.
  apply (follows_bind _ _ [] _ (follows_print _)); intros _.
  apply (follows_bind _ _ [_] _ (follows_invoke _)); intros _.
  apply (follows_bind _ _ [_] _ (follows_invoke _)); intros _.
  apply (follows_bind _ _ [_] _ (follows_invoke _)); intros _.
  apply (follows_bind _ _ [] _ (follows_observe _)); intros start.
  apply (follows_bind _ _ [_] _ (follows_invoke _)); intros _.
  apply (follows_bind _ _ [] _ (follows_observe _)); intros stop.
  apply (follows_bind _ _ [] _ (follows_print _)); intros _.
  apply follows_bind; [| intros _; apply follows_bind; [| intros _; apply follows_bind;
    [| intros _]]]; apply follows_when.
  - apply (follows_bind _ _ [_] [] (follows_invoke _)); intros _; apply follows_ret.
  - apply (follows_bind _ _ [_] [] (follows_invoke _)); intros _; apply follows_ret.
  - apply (follows_bind _ _ [_] [] (follows_invoke _)); intros _; apply follows_ret.
  - apply (follows_bind _ _ [_] [_; _] (follows_invoke _)); intros _.
    apply (follows_bind _ _ [_] [_] (follows_invoke _)); intros _.
    apply (follows_bind _ _ [_] [] (follows_invoke _)); intros _; apply follows_ret.
Qed.

Lemma follows_pipeline (args : Args) : follows (pipeline args) (planned_calls args).
Proof.
  unfold pipeline, planned_calls. rewrite app_assoc.
  apply follows_bind; [apply follows_front | intros _].
  apply (follows_bind _ _ [_] [] (follows_invoke _)); intros _.
  apply follows_observe.
Qed.

End TraceLaws.

(** X1. The calls of a run come in a fixed order: both [init()], the
    parser, [parse()], the dumps asked for (parse tree, symbol table,
    tokens, then the syntax, lexical and semantic error files) and
    [save_output()].  A run either makes all of them before anything else,
    or it ends, raising, at the first of them that raises. *)
Theorem X1_calls_in_order {H : Host} (args : Args) (w : world) :
  let calls := calls_since w (compile_code args w).2 in
  planned_calls args `prefix_of` calls
  \/ exists l c rest e,
       planned_calls args = l ++ c :: rest /\ calls = l ++ [c]
       /\ (compile_code args w).1 = inl e.
Proof.
  cbv zeta. rewrite compile_code_pipeline. unfold mbind, M_bind.
  pose proof (follows_pipeline args w) as Hp.
  destruct (pipeline args w) as [[e|texts] w1]; cbn in *.
  - right. destruct Hp as (l & c & rest & E1 & E2).
    exists l, c, rest, e. rewrite (calls_since_app _ _ _ E2). auto.
  - left.
    assert (Hc : exists l2, w_log (conclude args texts w1).2 = w_log w1 ++ l2).
    { destruct texts as [[lx sy] se]. unfold conclude.
      destruct (has_errors _).
      - destruct (report_errors_calls lx sy se w1) as (l2 & E2 & _). eauto.
      - destruct (succeed_log args w1) as (l2 & E2 & _). eauto. }
    destruct Hc as (l2 & E2). rewrite Hp, <- app_assoc in E2.
    rewrite (calls_since_app _ _ _ E2). now exists l2.
Qed.

(** ** Launches of the interpreter *)

Lemma filter_check_output_none (l : list call) :
  Forall (fun c => is_check_output c = false) l -> List.filter is_check_output l = [].
Proof.
  induction 1 as [|c l Hc _ IH]; [reflexivity|]. cbn. now rewrite Hc.
Qed.

Lemma run_program_log {H : Host} (args : Args) (w : world) :
  exists l, w_log (run_program args w).2 = w_log w ++ l /\ (length l <= 1)%nat.
Proof.
  unfold run_program.
  destruct (String.eqb platform_system "Windows");
    [| destruct (String.eqb platform_system "Linux");
       [| destruct (String.eqb platform_system "Darwin")]];
    unfold mbind, M_bind, mret, M_ret, raise, print, os_path_exists, when; cbn;
    try (exists []; rewrite app_nil_r; split; [reflexivity | cbn; lia]);
    (destruct (bool_decide _); cbn;
     [| exists []; rewrite app_nil_r; split; [reflexivity | cbn; lia]]);
    unfold try_except, mbind, M_bind, observe, invoke, print; cbn;
    (destruct (ext _ _ _) as [f e p [x|v]]; cbn;
     [destruct (String.eqb (exn_class x) "TimeoutExpired"); cbn |]);
    eexists [_]; (split; [reflexivity | cbn; lia]).
Qed.

(** X2. A run launches the interpreter at most once, and never when
    [args.run] is not set. *)
Theorem X2_at_most_one_launch {H : Host} (args : Args) (w : world) :
  (launch_count (calls_since w (compile_code args w).2)
   <= if run args then 1 else 0)%nat.
Proof.
  rewrite compile_code_pipeline. unfold mbind, M_bind.
  destruct (pipeline args w) as [[e|[[lx sy] se]] w1] eqn:Hp;
    destruct (only_run _ _ _ _ _ (pipeline_calls args) Hp) as (l1 & E1 & F1);
    assert (N1 : List.filter is_check_output l1 = [])
      by (apply filter_check_output_none; eapply Forall_impl;
          [exact F1 | now intros ? [? ?]]).
  - cbn. rewrite (calls_since_app _ _ _ E1). unfold launch_count. rewrite N1.
    cbn. lia.
  - unfold conclude. destruct (has_errors _).
    + destruct (report_errors_calls lx sy se w1) as (l2 & E2 & F2).
      rewrite E1, <- app_assoc in E2. rewrite (calls_since_app _ _ _ E2).
      unfold launch_count. rewrite List.filter_app, N1.
      rewrite filter_check_output_none
        by (eapply Forall_impl; [exact F2 | now intros ? []]).
      cbn. lia.
    + unfold succeed, mbind, M_bind, print, invoke; cbn.
      destruct (ext genARM _ _) as [f e p [x|v]]; cbn.
      * unfold calls_since; cbn. rewrite E1, <- app_assoc, drop_app_length.
        unfold launch_count. rewrite List.filter_app, N1. cbn. lia.
      * destruct (run args); cbn.
        -- match goal with |- context [run_program args ?w2] =>
             destruct (run_program_log args w2) as (l2 & E2 & L2)
           end.
           unfold calls_since. rewrite E2. cbn [w_log].
           rewrite E1, <- !app_assoc, drop_app_length.
           unfold launch_count. rewrite List.filter_app, N1. cbn.
           pose proof (List.filter_length_le is_check_output l2). lia.
        -- unfold calls_since; cbn. rewrite E1, <- app_assoc, drop_app_length.
           unfold launch_count. rewrite List.filter_app, N1. cbn. lia.
Qed.

(** ** What the execution prints, and what it lets through *)

Lemma run_program_returns {H : Host} (args : Args) (w : world) tester_file r out :
  tester_file_for platform_system = Some tester_file ->
  is_Some (w_files w !! output_file) ->
  ext (launch args tester_file) (w_files w) (w_env w) = r ->
  r_result r = inr out ->
  run_program args w =
  (inr tt,
   World (w_stdout w +:+ "Executing compiled program" +:+ PyStr.nl +:+ r_printed r
          +:+ printed_execution args (time_time (w_env w)) (time_time (r_env r)) out)
         (r_files r) (r_env r) (w_log w ++ [launch args tester_file])).
Proof.
  intros Ht [x Hf] Hr He. unfold printed_execution. by_platform Ht;
    unfold mbind, M_bind, print, os_path_exists, mret, M_ret, when, try_except,
      observe, invoke; cbn;
    rewrite Hf; cbn; rewrite Hr, He; cbn;
    rewrite !str_app_assoc; reflexivity.
Qed.

Lemma run_program_raises {H : Host} (args : Args) (w : world) tester_file r e :
  tester_file_for platform_system = Some tester_file ->
  is_Some (w_files w !! output_file) ->
  ext (launch args tester_file) (w_files w) (w_env w) = r ->
  r_result r = inl e ->
  exn_class e <> "TimeoutExpired" ->
  run_program args w =
  (inl e,
   World (w_stdout w +:+ "Executing compiled program" +:+ PyStr.nl +:+ r_printed r)
         (r_files r) (r_env r) (w_log w ++ [launch args tester_file])).
Proof.
  intros Ht [x Hf] Hr He Hc. apply String.eqb_neq in Hc. by_platform Ht;
    unfold mbind, M_bind, print, os_path_exists, mret, M_ret, when, try_except,
      observe, invoke; cbn;
    rewrite Hf; cbn; rewrite Hr, He, Hc; cbn;
    rewrite ?str_app_assoc; reflexivity.
Qed.

(** X3. After a successful compilation with [run] set, on a platform with
    an interpreter and with [output/output.txt] in place, when the
    interpreter returns, the run prints the time taken, the line
    [Program output:] and the output (filtered unless [verbose]), and
    returns normally. *)
Theorem X3_execution_output {H : Host} (args : Args) (w w2 : world)
    (tester_file out : string) :
  compiled args w w2 ->
  run args = true ->
  tester_file_for platform_system = Some tester_file ->
  is_Some (w_files w2 !! output_file) ->
  let r := ext (launch args tester_file) (w_files w2) (w_env w2) in
  r_result r = inr out ->
  compile_code args w =
  (inr tt,
   World (w_stdout w2 +:+ "Executing compiled program" +:+ PyStr.nl +:+ r_printed r
          +:+ "Execution took "
          +:+ fmt_elapsed (time_time (w_env w2)) (time_time (r_env r)) +:+ " s"
          +:+ PyStr.nl +:+ "Program output:" +:+ PyStr.nl
          +:+ displayed_output (verbose args) out +:+ PyStr.nl)
         (r_files r) (r_env r) (w_log w2 ++ [launch args tester_file])).
Proof.
  intros Hc Hr Ht Hf r He.
  rewrite (compile_code_compiled _ _ _ Hc), Hr. cbn [when].
  now apply run_program_returns.
Qed.

(** The small instance on Linux: the program prints 3. *)
Lemma X3_execution_output_witness :
  let H := Toy.linux in
  let args := mkArgs "/src/a.c" true false false false false false in
  let w := Toy.start Toy.fresh "/src/a.c" "int x; x = 1 + 2;" in
  let w2 := (backend (pipeline args w).2).2 in
  let tester_file := "/app/interpreter/tester_Linux.out" in
  let out := "PC = 1" +:+ PyStr.nl +:+ "PRINT    3" +:+ PyStr.nl in
  let r := ext (launch args tester_file) (w_files w2) (w_env w2) in
  compile_code args w =
  (inr tt,
   World (w_stdout w2 +:+ "Executing compiled program" +:+ PyStr.nl +:+ r_printed r
          +:+ "Execution took "
          +:+ fmt_elapsed (time_time (w_env w2)) (time_time (r_env r)) +:+ " s"
          +:+ PyStr.nl +:+ "Program output:" +:+ PyStr.nl
          +:+ displayed_output (verbose args) out +:+ PyStr.nl)
         (r_files r) (r_env r) (w_log w2 ++ [launch args tester_file])).
Proof.
  intros H args w w2 tester_file out r.
  apply (X3_execution_output args w w2 tester_file out).
  - exists ("There is no lexical errors.", "There is no syntax error.",
            "The input program is semantically correct."), (pipeline args w).2, "".
    split; [apply run_result; vm_compute; reflexivity|].
    split; [vm_compute; reflexivity|].
    apply run_result; vm_compute; reflexivity.
  - reflexivity.
  - vm_compute; reflexivity.
  - vm_compute. eexists. reflexivity.
  - vm_compute; reflexivity.
Defined.

(** X4. Only the timeout is caught: when the interpreter fails in any
    other way (a non-zero exit, say), the exception leaves
    [compile_code], after the backend has run and with nothing printed
    about the failure. *)
Theorem X4_other_failures_propagate {H : Host} (args : Args) (w w2 : world)
    (tester_file : string) (e : exn) :
  compiled args w w2 ->
  run args = true ->
  tester_file_for platform_system = Some tester_file ->
  is_Some (w_files w2 !! output_file) ->
  let r := ext (launch args tester_file) (w_files w2) (w_env w2) in
  r_result r = inl e ->
  exn_class e <> "TimeoutExpired" ->
  compile_code args w =
  (inl e,
   World (w_stdout w2 +:+ "Executing compiled program" +:+ PyStr.nl +:+ r_printed r)
         (r_files r) (r_env r) (w_log w2 ++ [launch args tester_file])).
Proof.
  intros Hc Hr Ht Hf r He Hx.
  rewrite (compile_code_compiled _ _ _ Hc), Hr. cbn [when].
  now apply run_program_raises.
Qed.

(** An interpreter that exits with an error. *)
Lemma X4_other_failures_propagate_witness :
  let e := Exn "CalledProcessError" "Command 'tester' returned non-zero exit status 1." in
  let H := Scripted.clean (inl e) in
  let args := mkArgs "/src/a.c" true false false false false false in
  let w := Scripted.start tt in
  let w2 := (backend (pipeline args w).2).2 in
  let tester_file := "/app/interpreter/tester_Linux.out" in
  let r := ext (launch args tester_file) (w_files w2) (w_env w2) in
  compile_code args w =
  (inl e,
   World (w_stdout w2 +:+ "Executing compiled program" +:+ PyStr.nl +:+ r_printed r)
         (r_files r) (r_env r) (w_log w2 ++ [launch args tester_file])).
Proof.
  intros e H args w w2 tester_file r.
  apply (X4_other_failures_propagate args w w2 tester_file e).
  - exists ("There is no lexical errors.", "There is no syntax error.",
            "The input program is semantically correct."), (pipeline args w).2, "".
    split; [apply run_result; vm_compute; reflexivity|].
    split; [vm_compute; reflexivity|].
    apply run_result; vm_compute; reflexivity.
  - reflexivity.
  - vm_compute; reflexivity.
  - vm_compute. eexists. reflexivity.
  - vm_compute; reflexivity.
  - vm_compute; discriminate.
Defined.

(** ** Whitespace and the three texts *)

Lemma str_app_cons (c : ascii) (s t : string) : String c s +:+ t = String c (s +:+ t).
Proof. reflexivity. Qed.

Lemma lstrip_app_space (a t : string) :
  PyText.all_space a = true -> PyStr.lstrip (a +:+ t) = PyStr.lstrip t.
Proof.
  induction a as [|c a IH]; [reflexivity|]. cbn.
  intros [Hc Ha]%andb_prop. rewrite str_app_cons. cbn. rewrite Hc. auto.
Qed.

Lemma rstrip_space (b : string) : PyText.all_space b = true -> PyStr.rstrip b = "".
Proof.
  induction b as [|c b IH]; [reflexivity|]. cbn.
  intros [Hc Hb]%andb_prop. now rewrite (IH Hb), Hc.
Qed.

Lemma rstrip_app_space (s b : string) :
  PyText.all_space b = true -> PyStr.rstrip (s +:+ b) = PyStr.rstrip s.
Proof.
  intros Hb. induction s as [|c s IH]; [now apply rstrip_space|].
  rewrite str_app_cons. cbn. now rewrite IH.
Qed.

Lemma rstrip_idem (s : string) : PyStr.rstrip (PyStr.rstrip s) = PyStr.rstrip s.
Proof.
  induction s as [|c s IH]; [reflexivity|]. cbn.
  destruct (PyStr.rstrip s) as [|d r] eqn:E.
  - destruct (PyStr.isspace c) eqn:Hc; [reflexivity|]. cbn. now rewrite Hc.
  - change (PyStr.rstrip (String c (String d r))) with
      (match PyStr.rstrip (String d r) with
       | EmptyString => if PyStr.isspace c then EmptyString else String c EmptyString
       | r' => String c r'
       end).
    now rewrite IH.
Qed.

Lemma lstrip_left_trimmed (s : string) : PyText.left_trimmed (PyStr.lstrip s).
Proof.
  induction s as [|c s IH]; [exact I|]. cbn.
  destruct (PyStr.isspace c) eqn:Hc; [exact IH | exact Hc].
Qed.

Lemma rstrip_left_trimmed (s : string) : PyText.left_trimmed s -> PyText.left_trimmed (PyStr.rstrip s).
Proof.
  destruct s as [|c s]; [auto|]. cbn. intros Hc.
  destruct (PyStr.rstrip s); [rewrite Hc|]; exact Hc.
Qed.

Lemma lstrip_fixed (s : string) : PyText.left_trimmed s -> PyStr.lstrip s = s.
Proof. destruct s as [|c s]; [reflexivity|]. cbn. now intros ->. Qed.

Lemma strip_idem (s : string) : PyStr.strip (PyStr.strip s) = PyStr.strip s.
Proof.
  unfold PyStr.strip.
  rewrite (lstrip_fixed (PyStr.rstrip (PyStr.lstrip s))).
  - apply rstrip_idem.
  - apply rstrip_left_trimmed, lstrip_left_trimmed.
Qed.

Lemma strip_space (s : string) : PyText.all_space s = true -> PyStr.strip s = "".
Proof.
  intros Hs. unfold PyStr.strip.
  rewrite <- (str_app_nil_r s), lstrip_app_space by exact Hs. reflexivity.
Qed.

(** A text between whitespace is what [strip] gives, when it begins and
    ends with characters that are not whitespace. *)
Lemma strip_padded (a s b : string) :
  PyText.all_space a = true -> PyText.all_space b = true ->
  s <> "" -> PyText.left_trimmed s -> PyStr.rstrip s = s ->
  PyStr.strip (a +:+ s +:+ b) = s.
Proof.
  intros Ha Hb Hne Hl Hr. unfold PyStr.strip.
  rewrite lstrip_app_space by exact Ha.
  rewrite lstrip_fixed.
  - now rewrite rstrip_app_space.
  - destruct s as [|c s]; [contradiction|]. exact Hl.
Qed.

Lemma pipeline_texts {H : Host} (args : Args) (w w1 : world)
    (texts : string * string * string) :
  pipeline args w = (inr texts, w1) ->
  texts = (PyStr.strip (lexical_errors (w_env w1)),
           PyStr.strip (syntax_errors (w_env w1)),
           PyStr.strip (semantic_errors (w_env w1))).
Proof.
  unfold pipeline, mbind, M_bind.
  destruct (front args w) as [[e|[]] w0]; [discriminate|].
  unfold invoke. destruct (r_result _); [discriminate|].
  unfold collect_errors, observe. cbn. now intros [= <- <-].
Qed.

Lemma report_errors_printed {H : Host} (lexical syntax semantic : string) (w1 : world) :
  w_stdout (report_errors lexical syntax semantic w1).2
  = w_stdout w1 +:+ printed_report (lexical, syntax, semantic).
Proof.
  unfold report_errors, printed_report, section, when, mbind, M_bind, mret, M_ret,
    print, f_write, open_w, os_makedirs.
  destruct lexical, syntax, semantic; cbn;
    rewrite ?str_app_nil_r, ?str_app_assoc; reflexivity.
Qed.

(** X5. A run that ends with a category in error prints, after what the
    pipeline printed, the line [Compilation failed due to the following
    errors:], an empty line, and the sections of the categories whose
    stripped text is not empty, lexical, syntax, semantic, each a heading
    line and the text. *)
Theorem X5_printed_report {H : Host} (args : Args) (w w1 : world)
    (texts : string * string * string) :
  pipeline args w = (inr texts, w1) ->
  has_errors texts = true ->
  w_stdout (compile_code args w).2 = w_stdout w1 +:+ printed_report texts.
Proof.
  intros Hp He. rewrite compile_code_pipeline. unfold mbind, M_bind. rewrite Hp.
  destruct texts as [[lx sy] se]. unfold conclude. rewrite He.
  apply report_errors_printed.
Qed.

(** A lexical error and a semantic error. *)
Lemma X5_printed_report_witness :
  let H := Toy.linux in
  let args := mkArgs "/src/a.c" false false false false false false in
  let w := Toy.start Toy.fresh "/src/a.c" "int @; foo(1);" in
  let texts := ("#1 : Lexical Error! Invalid input '@'.", "There is no syntax error.",
                "#1 : Semantic Error! 'foo' is not defined.") in
  w_stdout (compile_code args w).2
  = w_stdout (pipeline args w).2 +:+ printed_report texts.
Proof.
  intros H args w texts.
  apply (X5_printed_report args w (pipeline args w).2 texts).
  - apply run_result. vm_compute. reflexivity.
  - vm_compute. reflexivity.
Defined.

(** X6. A category whose text is empty or only whitespace counts as in
    error.  When all three are so, the run fails, prints the heading of
    the report and no section, and leaves [armv8_output.s] empty; the
    backend is not invoked. *)
Theorem X6_blank_texts_fail {H : Host} (args : Args) (w w1 : world)
    (texts : string * string * string) :
  pipeline args w = (inr texts, w1) ->
  PyText.all_space (lexical_errors (w_env w1)) = true ->
  PyText.all_space (syntax_errors (w_env w1)) = true ->
  PyText.all_space (semantic_errors (w_env w1)) = true ->
  exists w2,
    compile_code args w = (inr tt, w2)
    /\ w_files w2 !! output_path = Some ""
    /\ w_stdout w2 = w_stdout w1 +:+ "Compilation failed due to the following errors:"
                     +:+ PyStr.nl +:+ PyStr.nl
    /\ genARM_count (calls_since w w2) = 0%nat.
Proof.
  intros Hp Hl Hs Hm.
  pose proof (pipeline_texts _ _ _ _ Hp) as Ht.
  rewrite (strip_space _ Hl), (strip_space _ Hs), (strip_space _ Hm) in Ht. subst texts.
  destruct (failed_run args w w1 _ Hp eq_refl) as (w2 & Hrun & Hfiles & Hlog & Hn).
  exists w2. split; [exact Hrun|]. split; [| split; [| exact Hn]].
  - rewrite Hfiles. apply lookup_insert_eq.
  - pose proof (report_errors_printed "" "" "" w1) as Hpr.
    assert (E : compile_code args w = report_errors "" "" "" w1)
      by (rewrite compile_code_pipeline; unfold mbind, M_bind; now rewrite Hp).
    rewrite <- E, Hrun in Hpr. exact Hpr.
Qed.

(** Modules that leave a blank, an empty and a newline-only text. *)
Lemma X6_blank_texts_fail_witness :
  let H := Scripted.host "Linux" " " "" PyStr.nl (inr "") in
  let args := mkArgs "/src/a.c" false false false false false false in
  let w := Scripted.start tt in
  let w1 := (pipeline args w).2 in
  exists w2,
    compile_code args w = (inr tt, w2)
    /\ w_files w2 !! output_path = Some ""
    /\ w_stdout w2 = w_stdout w1 +:+ "Compilation failed due to the following errors:"
                     +:+ PyStr.nl +:+ PyStr.nl
    /\ genARM_count (calls_since w w2) = 0%nat.
Proof.
  intros H args w w1.
  apply (X6_blank_texts_fail args w w1 ("", "", "")).
  - apply run_result. vm_compute. reflexivity.
  - vm_compute. reflexivity.
  - vm_compute. reflexivity.
  - vm_compute. reflexivity.
Defined.

(** X7. The error check does not see whitespace around a text: when each
    of the three texts is its sentinel between whitespace (a final
    newline, say), the pipeline ends with the three sentinels and the run
    has no errors. *)
Theorem X7_padded_sentinels_pass {H : Host} (args : Args) (w w1 : world)
    (texts : string * string * string) (a1 b1 a2 b2 a3 b3 : string) :
  pipeline args w = (inr texts, w1) ->
  lexical_errors (w_env w1) = a1 +:+ "There is no lexical errors." +:+ b1 ->
  syntax_errors (w_env w1) = a2 +:+ "There is no syntax error." +:+ b2 ->
  semantic_errors (w_env w1)
  = a3 +:+ "The input program is semantically correct." +:+ b3 ->
  forallb PyText.all_space [a1; b1; a2; b2; a3; b3] = true ->
  texts = ("There is no lexical errors.", "There is no syntax error.",
           "The input program is semantically correct.")
  /\ has_errors texts = false
  /\ compile_code args w = succeed args w1.
Proof.
  intros Hp Hl Hs Hm Hsp.
  cbn in Hsp. rewrite !andb_true_r in Hsp.
  repeat (apply andb_prop in Hsp as [? Hsp]).
  pose proof (pipeline_texts _ _ _ _ Hp) as Ht. rewrite Hl, Hs, Hm in Ht.
  rewrite !strip_padded in Ht by (assumption || discriminate || reflexivity).
  subst texts. split; [reflexivity|]. split; [reflexivity|].
  rewrite compile_code_pipeline. unfold mbind, M_bind. now rewrite Hp.
Qed.

(** Texts that end with a newline, the first one indented. *)
Lemma X7_padded_sentinels_pass_witness :
  let H := Scripted.host "Linux"
             ("  " +:+ "There is no lexical errors." +:+ PyStr.nl)
             ("" +:+ "There is no syntax error." +:+ PyStr.nl)
             ("" +:+ "The input program is semantically correct." +:+ PyStr.nl)
             (inr "") in
  let args := mkArgs "/src/a.c" false false false false false false in
  let w := Scripted.start tt in
  let texts := ("There is no lexical errors.", "There is no syntax error.",
                "The input program is semantically correct.") in
  texts = ("There is no lexical errors.", "There is no syntax error.",
           "The input program is semantically correct.")
  /\ has_errors texts = false
  /\ compile_code args w = succeed args (pipeline args w).2.
Proof.
  intros H args w texts.
  apply (X7_padded_sentinels_pass args w (pipeline args w).2 texts
           "  " PyStr.nl "" PyStr.nl "" PyStr.nl).
  - apply run_result. vm_compute. reflexivity.
  - reflexivity.
  - reflexivity.
  - reflexivity.
  - reflexivity.
Defined.

(** X8. The three texts a run compares with the sentinels, prints and
    writes to the report have no whitespace at either end: stripping them
    again changes nothing. *)
Theorem X8_texts_are_trimmed {H : Host} (args : Args) (w w1 : world)
    (lexical syntax semantic : string) :
  pipeline args w = (inr (lexical, syntax, semantic), w1) ->
  PyStr.strip lexical = lexical /\ PyStr.strip syntax = syntax
  /\ PyStr.strip semantic = semantic.
Proof.
  intros Hp. apply pipeline_texts in Hp. injection Hp as -> -> ->.
  repeat split; apply strip_idem.
Qed.

Lemma X8_texts_are_trimmed_witness :
  let H := Toy.linux in
  let args := mkArgs "/src/a.c" false false false false false false in
  let w := Toy.start Toy.fresh "/src/a.c" "int @;" in
  PyStr.strip "#1 : Lexical Error! Invalid input '@'."
  = "#1 : Lexical Error! Invalid input '@'."
  /\ PyStr.strip "There is no syntax error." = "There is no syntax error."
  /\ PyStr.strip "The input program is semantically correct."
     = "The input program is semantically correct.".
Proof.
  intros H args w.
  apply (X8_texts_are_trimmed args w (pipeline args w).2).
  apply run_result. vm_compute. reflexivity.
Defined.

(** ** The lines of the filtered output *)

Lemma all_chars_lstrip p (s : string) :
  PyText.all_chars p s = true -> PyText.all_chars p (PyStr.lstrip s) = true.
Proof.
  induction s as [|c s IH]; [auto|]. cbn. intros [Hc Hs]%andb_prop.
  destruct (PyStr.isspace c); [auto | cbn; now rewrite Hc, Hs].
Qed.

Lemma all_chars_rstrip p (s : string) :
  PyText.all_chars p s = true -> PyText.all_chars p (PyStr.rstrip s) = true.
Proof.
  induction s as [|c s IH]; [auto|]. cbn. intros [Hc Hs]%andb_prop.
  specialize (IH Hs). destruct (PyStr.rstrip s).
  - destruct (PyStr.isspace c); [reflexivity | cbn; now rewrite Hc].
  - cbn in *. now rewrite Hc, IH.
Qed.

Lemma replace_from_cons k old new c (s : string) :
  PyStr.replace_from k old new (String c s)
  = match k with
    | S k' => PyStr.replace_from k' old new s
    | O => if String.prefix old (String c s)
           then new +:+ PyStr.replace_from (Nat.pred (String.length old)) old new s
           else String c (PyStr.replace_from O old new s)
    end.
Proof. reflexivity. Qed.

Lemma all_chars_replace p old (s : string) k :
  PyText.all_chars p s = true ->
  PyText.all_chars p (PyStr.replace_from k old "" s) = true.
Proof.
  revert k. induction s as [|c s IH]; intros k; [auto|].
  change (PyText.all_chars p (String c s)) with (p c && PyText.all_chars p s).
  intros [Hc Hs]%andb_prop. rewrite replace_from_cons.
  destruct k as [|k]; [| exact (IH k Hs)].
  destruct (String.prefix old (String c s)).
  - exact (IH _ Hs).
  - change (p c && PyText.all_chars p (PyStr.replace_from 0 old "" s) = true).
    rewrite Hc. exact (IH _ Hs).
Qed.

Lemma splitlines_no_linebreak (s : string) :
  Forall (fun l => PyText.no_linebreak l = true) (PyStr.splitlines s).
Proof.
  assert (Hn : forall n s, (String.length s <= n)%nat ->
    Forall (fun l => PyText.no_linebreak l = true) (PyStr.splitlines s)).
  { clear s. induction n as [|n IH]; intros [|c s] Hlen; cbn in *;
      try (constructor; fail); try lia.
    destruct (PyStr.is_linebreak c) eqn:Hc.
    - destruct s as [|c' s'']; [repeat constructor|].
      destruct (Ascii.eqb c PyStr.cr && Ascii.eqb c' PyStr.lf);
        (constructor; [reflexivity | apply IH; cbn in *; lia]).
    - assert (Hs : Forall (fun l => PyText.no_linebreak l = true) (PyStr.splitlines s))
        by (apply IH; lia).
      destruct (PyStr.splitlines s) as [|l ls].
      + repeat constructor. unfold PyText.no_linebreak. cbn. now rewrite Hc.
      + inversion Hs as [|? ? Hl Hls]; subst. constructor; [|exact Hls].
        unfold PyText.no_linebreak in *. cbn. now rewrite Hc, Hl. }
  now apply (Hn (String.length s)).
Qed.

Lemma count_char_app c (a b : string) :
  PyText.count_char c (a +:+ b) = (PyText.count_char c a + PyText.count_char c b)%nat.
Proof.
  induction a as [|d a IH]; [reflexivity|].
  rewrite str_app_cons. cbn. rewrite IH. lia.
Qed.

Lemma count_lf_no_linebreak (s : string) :
  PyText.no_linebreak s = true -> PyText.count_char PyStr.lf s = 0%nat.
Proof.
  unfold PyText.no_linebreak. induction s as [|d s IH]; [reflexivity|]. cbn.
  intros [Hd Hs]%andb_prop. rewrite (IH Hs).
  destruct (Ascii.eqb d PyStr.lf) eqn:E; [|reflexivity].
  apply Ascii.eqb_eq in E. subst d. discriminate Hd.
Qed.

Lemma count_lf_join (ls : list string) :
  Forall (fun l => PyText.no_linebreak l = true) ls ->
  PyText.count_char PyStr.lf (PyStr.join PyStr.nl ls) = Nat.pred (length ls).
Proof.
  unfold PyStr.join. induction 1 as [|l ls Hl Hls IH]; [reflexivity|].
  destruct ls as [|l' ls'].
  - cbn. now apply count_lf_no_linebreak.
  - change (String.concat PyStr.nl (l :: l' :: ls'))
      with (l +:+ PyStr.nl +:+ String.concat PyStr.nl (l' :: ls')).
    rewrite !count_char_app, IH, (count_lf_no_linebreak _ Hl). reflexivity.
Qed.

Lemma Forall_list_filter {A} (P : A -> Prop) (f : A -> bool) (l : list A) :
  Forall P l -> Forall P (List.filter f l).
Proof.
  induction 1 as [|x l Hx _ IH]; [constructor|]. cbn.
  destruct (f x); [constructor|]; assumption.
Qed.

Lemma marked_lines_eq (out : string) :
  marked_lines out
  = map marker_stripped (List.filter begins_with_marker (PyStr.splitlines out)).
Proof. unfold marked_lines. now rewrite comprehension_fold. Qed.

(** X9. Without [verbose], every displayed line is free of line
    boundaries and of whitespace at its ends, so the displayed text has one
    line per line of the interpreter's output that begins with [PRINT]: the
    number of its newline characters is the number of these lines less
    one. *)
Theorem X9_one_line_per_marked_line (tester_output : string) :
  let kept := List.filter (fun line => PyStr.startswith line "PRINT")
                          (PyStr.splitlines tester_output) in
  Forall (fun line => PyStr.strip line = line /\ PyText.no_linebreak line = true)
         (marked_lines tester_output)
  /\ length (marked_lines tester_output) = length kept
  /\ PyText.count_char PyStr.lf (displayed_output false tester_output)
     = Nat.pred (length kept).
Proof.
  cbv zeta.
  assert (Hm : Forall (fun line => PyStr.strip line = line
                                   /\ PyText.no_linebreak line = true)
                      (marked_lines tester_output)).
  { rewrite marked_lines_eq. apply Forall_map.
    eapply Forall_impl;
      [apply Forall_list_filter, splitlines_no_linebreak |].
    intros l Hl. cbn. split; [apply strip_idem|].
    unfold marker_stripped, PyStr.strip, PyStr.replace, PyText.no_linebreak.
    now apply all_chars_rstrip, all_chars_lstrip, all_chars_replace. }
  assert (Hlen : length (marked_lines tester_output)
                 = length (List.filter (fun line => PyStr.startswith line "PRINT")
                                       (PyStr.splitlines tester_output)))
    by (rewrite marked_lines_eq; apply length_map).
  repeat split; [exact Hm | exact Hlen |].
  unfold displayed_output. cbn [negb]. rewrite count_lf_join, Hlen; [reflexivity|].
  eapply Forall_impl; [exact Hm | now intros ? [_ ?]].
Qed.

Lemma replace_absent old new (s : string) :
  PyStr.contains old s = false -> PyStr.replace s old new = s.
Proof.
  unfold PyStr.replace. induction s as [|c s IH]; [reflexivity|].
  change (PyStr.contains old (String c s))
    with (String.prefix old (String c s) || PyStr.contains old s).
  intros [Hp Hs]%orb_false_elim. rewrite replace_from_cons, Hp. now rewrite IH.
Qed.

Lemma splitlines_one_line (s : string) :
  PyText.no_linebreak s = true ->
  PyStr.splitlines s = match s with EmptyString => [] | _ => [s] end.
Proof.
  unfold PyText.no_linebreak. induction s as [|c s IH]; [reflexivity|].
  change (negb (PyStr.is_linebreak c)
          && PyText.all_chars (fun c => negb (PyStr.is_linebreak c)) s = true
          -> PyStr.splitlines (String c s) = [String c s]).
  intros [Hc Hs]%andb_prop. apply negb_true_iff in Hc.
  cbn. rewrite Hc, (IH Hs). now destruct s.
Qed.

(** X10. A line made of [PRINT] and a text with no further [PRINT] (and
    no line boundary) is displayed as that text without the whitespace at
    its ends. *)
Theorem X10_plain_print_line (text : string) :
  PyText.no_linebreak text = true ->
  PyStr.contains "PRINT" text = false ->
  displayed_output false ("PRINT" +:+ text) = PyStr.strip text.
Proof.
  intros Hn Hc.
  change ("PRINT" +:+ text)
    with (String "P" (String "R" (String "I" (String "N" (String "T" text))))).
  unfold displayed_output, marked_lines. cbn [negb].
  rewrite splitlines_one_line by exact Hn.
  cbn [fold_left]. unfold comprehension_step.
  replace (PyStr.startswith _ marker) with true by (now destruct text).
  replace (PyStr.replace (String "P" (String "R" (String "I" (String "N" (String "T" text)))))
                         marker "")
    with (PyStr.replace text marker "") by (now destruct text).
  rewrite replace_absent by exact Hc. reflexivity.
Qed.

Lemma X10_plain_print_line_witness :
  displayed_output false ("PRINT" +:+ "    5  ") = PyStr.strip "    5  ".
Proof.
  apply (X10_plain_print_line "    5  "); reflexivity.
Defined.

(** ** The handler: what it calls and what it leaves *)

Lemma calls_since_same {H : Host} (w w' : world) :
  w_log w' = w_log w -> calls_since w w' = [].
Proof. intros E. unfold calls_since. rewrite E. apply drop_all. Qed.

(** The compiler as the handler runs it: no dump, no execution. *)
Lemma handler_run_calls {H : Host} (source_path : string) (w : world) :
  calls_since w (compile_code (api_args source_path) w).2
  `prefix_of` handler_calls source_path.
Proof.
  rewrite compile_code_pipeline. unfold mbind, M_bind.
  pose proof (follows_pipeline (api_args source_path) w) as Hp.
  change (planned_calls (api_args source_path))
    with [SymbolTableManager_init; MemoryManager_init; Parser source_path; parse;
          save_output] in Hp.
  destruct (pipeline (api_args source_path) w) as [[e|[[lx sy] se]] w1]; cbn in Hp.
  - destruct Hp as (l & c & rest & E1 & E2). cbn [snd].
    rewrite (calls_since_app _ _ _ E2).
    exists (rest ++ [genARM]). unfold handler_calls.
    change [SymbolTableManager_init; MemoryManager_init; Parser source_path; parse;
            save_output; genARM]
      with ([SymbolTableManager_init; MemoryManager_init; Parser source_path; parse;
             save_output] ++ [genARM]).
    rewrite E1, <- !app_assoc. reflexivity.
  - unfold conclude. destruct (has_errors _).
    + rewrite error_report_written. unfold calls_since; cbn.
      rewrite Hp, drop_app_length. now exists [genARM].
    + unfold succeed, api_args, mbind, M_bind, print, invoke, when; cbn.
      destruct (r_result _); cbn; unfold calls_since; cbn;
        rewrite Hp, <- app_assoc, drop_app_length; reflexivity.
Qed.

(** The world the handler leaves: [sys.stdout] as it was, and the log of
    the run of the compiler, if there was one. *)
Lemma api_compile_world {H : Host} (get_json : exn + json) (w : world) :
  w_stdout (api_compile get_json w).2 = w_stdout w
  /\ (w_log (api_compile get_json w).2 = w_log w
      \/ exists files,
           w_log (api_compile get_json w).2
           = w_log (compile_code (api_args (mkstemp ".c" (w_files w) (w_env w)))
                                 (World "" files (w_env w) (w_log w))).2).
Proof.
  unfold api_compile, try_except_Exception, api_except.
  destruct get_json as [e|v]; [cbn; auto|].
  destruct v as [| | | | |l|d]; try (cbn; auto; fail).
  destruct (default (JStr "") (assoc "code" d)) as [| | | |text| |] eqn:Hcode;
    try (unfold api_try, mbind, M_bind, mret, M_ret, data_get_code,
           write_temporary_file; rewrite Hcode; cbn; auto; fail).
  rewrite (api_try_run d text w Hcode). cbv zeta.
  destruct (compile_code _ _) as [[e|u] w1] eqn:E; cbn;
    [| destruct (w_files w1 !! _); cbn ]; (split; [reflexivity|]);
    right; eexists; rewrite E; reflexivity.
Qed.

(** X11. Whatever the request, the handler makes no call but, in this
    order, both [init()], the parser on the temporary file, [parse()],
    [save_output()] and the backend: it saves no dump and never launches
    the interpreter. *)
Theorem X11_handler_calls {H : Host} (get_json : exn + json) (w : world) :
  calls_since w (api_compile get_json w).2
  `prefix_of` [SymbolTableManager_init; MemoryManager_init;
               Parser (mkstemp ".c" (w_files w) (w_env w)); parse;
               save_output; genARM].
Proof.
  destruct (api_compile_world get_json w) as [_ [E | (files & E)]].
  - rewrite (calls_since_same _ _ E). apply prefix_nil.
  - unfold calls_since. rewrite E.
    apply (handler_run_calls _ (World "" files (w_env w) (w_log w))).
Qed.

(** X12. Whatever the request, and whether the compiler returns or
    raises, the handler leaves [sys.stdout] as it found it: what the run
    printed is in the answer only. *)
Theorem X12_handler_keeps_stdout {H : Host} (get_json : exn + json) (w : world) :
  w_stdout (api_compile get_json w).2 = w_stdout w.
Proof. apply api_compile_world. Qed.

(** X13. Requests that fail before the compiler runs are answered with
    status 500 and the text of the exception.  When [get_json()] raises,
    or gives something that is not an object (so has no [get]), nothing is
    called and no file is made; when [code] is not a string, the temporary
    file has been made, and it stays, empty: the text of the [TypeError]
    names the type of [code], and says [None] when [code] is [null]. *)
Theorem X13_malformed_requests {H : Host} (w : world) :
  (forall e,
     api_compile (inl e) w
     = (inr (Response 500 [("success", JBool false); ("error", JStr (exn_str e))]), w))
  /\ (forall v, is_dict v = false ->
        api_compile (inr v) w
        = (inr (Response 500
                  [("success", JBool false);
                   ("error", JStr ("'" +:+ type_name v
                                   +:+ "' object has no attribute 'get'"))]), w))
  /\ (forall d code, assoc "code" d = Some code -> is_str code = false ->
        api_compile (inr (JDict d)) w
        = (inr (Response 500
                  [("success", JBool false);
                   ("error", JStr ("write() argument must be str, not "
                                   +:+ match code with
                                       | JNull => "None"
                                       | JBool _ => "bool"
                                       | JInt _ => "int"
                                       | JFloat _ => "float"
                                       | JList _ => "list"
                                       | JDict _ => "dict"
                                       | JStr _ => "str"
                                       end))]),
           World (w_stdout w)
                 (<[mkstemp ".c" (w_files w) (w_env w) := ""]> (w_files w))
                 (w_env w) (w_log w))).
Proof.
  split; [reflexivity|]. split.
  - intros v Hv. destruct v; try discriminate Hv; reflexivity.
  - intros d code Hd Hc.
    unfold api_compile, try_except_Exception, api_try, mbind, M_bind, mret, M_ret,
      data_get_code, write_temporary_file.
    rewrite Hd. cbn. destruct code; try discriminate Hc; reflexivity.
Qed.

(** A list as body, a number as code, and [null] as code. *)
Lemma X13_malformed_requests_witness :
  let H := Toy.linux in
  let w := World "" ∅ Toy.fresh [] in
  let made := World (w_stdout w)
                    (<[mkstemp ".c" (w_files w) (w_env w) := ""]> (w_files w))
                    (w_env w) (w_log w) in
  api_compile (inr (JList [JStr "int x;"])) w
  = (inr (Response 500
            [("success", JBool false);
             ("error", JStr "'list' object has no attribute 'get'")]), w)
  /\ api_compile (inr (JDict [("code", JInt 42)])) w
     = (inr (Response 500
               [("success", JBool false);
                ("error", JStr "write() argument must be str, not int")]), made)
  /\ api_compile (inr (JDict [("code", JNull)])) w
     = (inr (Response 500
               [("success", JBool false);
                ("error", JStr "write() argument must be str, not None")]), made).
Proof.
  intros H w made. split; [| split].
  - apply (proj1 (proj2 (X13_malformed_requests w)) (JList [JStr "int x;"])).
    reflexivity.
  - apply (proj2 (proj2 (X13_malformed_requests w)) [("code", JInt 42)] (JInt 42));
      reflexivity.
  - apply (proj2 (proj2 (X13_malformed_requests w)) [("code", JNull)] JNull);
      reflexivity.
Defined.

(** X14. An object without the key [code] is handled as one whose code
    is the empty string: the empty program is compiled. *)
Theorem X14_missing_code_key {H : Host} (d : list (string * json)) (w : world) :
  assoc "code" d = None ->
  api_compile (inr (JDict d)) w = api_compile (inr (JDict [("code", JStr "")])) w.
Proof.
  intros Hd. unfold api_compile, try_except_Exception.
  rewrite (api_try_run d "" w), (api_try_run [("code", JStr "")] "" w);
    [reflexivity | reflexivity | now rewrite Hd].
Qed.

Lemma X14_missing_code_key_witness :
  let H := Toy.linux in
  let w := World "" ∅ Toy.fresh [] in
  api_compile (inr (JDict [("source", JStr "int x;")])) w
  = api_compile (inr (JDict [("code", JStr "")])) w.
Proof.
  intros H w.
  apply (X14_missing_code_key [("source", JStr "int x;")] w). reflexivity.
Defined.

(** X15. When the answer has status 200 the temporary source file is
    gone; it is removed only after the compiler has returned, so an answer
    with status 500 from a run that raised leaves it to the modules. *)
Theorem X15_temporary_file_removed {H : Host} (d : list (string * json))
    (text : string) (w : world) :
  default (JStr "") (assoc "code" d) = JStr text ->
  let source_path := mkstemp ".c" (w_files w) (w_env w) in
  let quiet := World "" (<[source_path := text]> (w_files w)) (w_env w) (w_log w) in
  match api_compile (inr (JDict d)) w with
  | (inr (Response 200 _), w') => w_files w' !! source_path = None
  | (_, w') => w_files w' = w_files (compile_code (api_args source_path) quiet).2
  end.
Proof.
  intros Hcode source_path quiet.
  unfold api_compile, try_except_Exception, api_except.
  rewrite (api_try_run d text w Hcode). cbv zeta. fold source_path. fold quiet.
  destruct (compile_code (api_args source_path) quiet) as [[e|u] w1]; cbn.
  - reflexivity.
  - destruct (w_files w1 !! source_path) eqn:E; cbn.
    + apply lookup_delete_eq.
    + reflexivity.
Qed.

Lemma X15_temporary_file_removed_witness :
  let H := Toy.linux in
  let d := [("code", JStr "int x;")] in
  let w := World "" ∅ Toy.fresh [] in
  let source_path := mkstemp ".c" (w_files w) (w_env w) in
  let quiet := World "" (<[source_path := "int x;"]> (w_files w)) (w_env w) (w_log w) in
  match api_compile (inr (JDict d)) w with
  | (inr (Response 200 _), w') => w_files w' !! source_path = None
  | (_, w') => w_files w' = w_files (compile_code (api_args source_path) quiet).2
  end.
Proof.
  intros H d w source_path quiet.
  apply (X15_temporary_file_removed d "int x;" w). reflexivity.
Defined.

(** ** The files the driver writes itself *)

Section OwnWrites.
Context {H : Host}.

(** The modules write no file. *)
Hypothesis modules_write_nothing : forall c f e, r_files (ext c f e) = f.

Lemma touches_ret {A} p (a : A) : touches_only p (mret a).
Proof. now intros w q _. Qed.

Lemma touches_raise {A} p (e : exn) : touches_only p (raise e : M A).
Proof. now intros w q _. Qed.

Lemma touches_print p s : touches_only p (print s).
Proof. now intros w q _. Qed.

Lemma touches_observe {A} p (g : env -> A) : touches_only p (observe g).
Proof. now intros w q _. Qed.

Lemma touches_os_path_exists p f : touches_only p (os_path_exists f).
Proof. now intros w q _. Qed.

Lemma touches_os_makedirs p d : touches_only p (os_makedirs d).
Proof. now intros w q _. Qed.

Lemma touches_invoke p c : touches_only p (invoke c).
Proof. intros w q _. unfold invoke. cbn. now rewrite modules_write_nothing. Qed.

Lemma touches_open_w p : touches_only p (open_w p).
Proof. intros w q Hq. cbn. now apply lookup_insert_ne. Qed.

Lemma touches_f_write p s : touches_only p (f_write p s).
Proof. intros w q Hq. cbn. now apply lookup_insert_ne. Qed.

Lemma touches_bind {A B} p (m : M A) (f : A -> M B) :
  touches_only p m -> (forall a, touches_only p (f a)) -> touches_only p (m ≫= f).
Proof.
  intros Hm Hf w q Hq. specialize (Hm w q Hq). unfold mbind, M_bind.
  destruct (m w) as [[e|a] w1]; cbn in *; [exact Hm|].
  now rewrite (Hf a w1 q Hq).
Qed.

Lemma touches_when p b (m : M unit) : touches_only p m -> touches_only p (when b m).
Proof. destruct b; [auto | intros _; apply touches_ret]. Qed.

Lemma touches_try_except {A} p (m h : M A) cls :
  touches_only p m -> touches_only p h -> touches_only p (try_except m cls h).
Proof.
  intros Hm Hh w q Hq. specialize (Hm w q Hq). unfold try_except.
  destruct (m w) as [[e|a] w1]; cbn in *; [|exact Hm].
  destruct (String.eqb (exn_class e) cls); cbn; [|exact Hm].
  now rewrite (Hh w1 q Hq).
Qed.

Lemma compile_code_touches (args : Args) : touches_only output_path (compile_code args).
Proof.
  unfold compile_code, report_errors, run_program.
  repeat first
    [ apply touches_bind; [| intros ?]
    | apply touches_when
    | apply touches_try_except
    | apply touches_ret | apply touches_raise | apply touches_print
    | apply touches_observe | apply touches_os_path_exists | apply touches_os_makedirs
    | apply touches_invoke | apply touches_open_w | apply touches_f_write
    | match goal with |- touches_only _ (if ?b then _ else _) => destruct b end ].
Qed.

End OwnWrites.

(** X16. The only file [compile_code] writes itself is [armv8_output.s]
    in its own directory: when the modules it calls write no file, every
    other file is after the run as it was before. *)
Theorem X16_driver_writes_one_file {H : Host} (args : Args) (w : world) (path : string) :
  (forall c f e, r_files (ext c f e) = f) ->
  path <> output_path ->
  w_files (compile_code args w).2 !! path = w_files w !! path.
Proof. intros Hq Hp. now apply compile_code_touches. Qed.

(** Modules that do nothing, errors in the program, and the source file. *)
Lemma X16_driver_writes_one_file_witness :
  let H := Scripted.host "Linux" "#1 : Lexical Error!" "" "" (inr "") in
  let args := mkArgs "/src/a.c" true true true true true true in
  let w := Scripted.start tt in
  w_files (compile_code args w).2 !! "/src/a.c" = w_files w !! "/src/a.c".
Proof.
  intros H args w.
  apply (X16_driver_writes_one_file args w "/src/a.c").
  - reflexivity.
  - vm_compute. discriminate.
Defined.

(** ** The entry point *)





(** ** Paths *)

Lemma ends_with_sep_cons sep c (s : string) :
  OsPath.ends_with_sep sep (String c s)
  = match s with
    | EmptyString => Ascii.eqb c sep
    | _ => OsPath.ends_with_sep sep s
    end.
Proof. now destruct s. Qed.

Lemma head_cons sep c (p : string) :
  OsPath.head sep (String c p)
  = match OsPath.head sep p with
    | Some h => Some (String c h)
    | None => if Ascii.eqb c sep then Some (String c "") else None
    end.
Proof. reflexivity. Qed.

Lemma rstrip_sep_cons sep c (s : string) :
  OsPath.rstrip_sep sep (String c s)
  = match OsPath.rstrip_sep sep s with
    | EmptyString => if Ascii.eqb c sep then EmptyString else String c EmptyString
    | r => String c r
    end.
Proof. reflexivity. Qed.

Lemma head_app sep (a b : string) :
  OsPath.head sep b = None -> OsPath.head sep (a +:+ b) = OsPath.head sep a.
Proof.
  intros Hb. induction a as [|c a IH]; [exact Hb|].
  now rewrite str_app_cons, !head_cons, IH.
Qed.

Lemma head_ends_with_sep sep (a : string) :
  OsPath.ends_with_sep sep a = true -> OsPath.head sep a = Some a.
Proof.
  induction a as [|c a IH]; [discriminate|].
  rewrite ends_with_sep_cons, head_cons. destruct a as [|d a].
  - intros ->. reflexivity.
  - intros E. now rewrite (IH E).
Qed.

Lemma ends_with_sep_app sep (a b : string) :
  b <> "" -> OsPath.ends_with_sep sep (a +:+ b) = OsPath.ends_with_sep sep b.
Proof.
  intros Hb. induction a as [|c a IH]; [reflexivity|].
  rewrite str_app_cons, ends_with_sep_cons, IH.
  destruct (a +:+ b) eqn:E; [|reflexivity].
  destruct a; [cbn in E; contradiction | discriminate E].
Qed.

Lemma rstrip_sep_snoc sep (a : string) :
  OsPath.rstrip_sep sep (a +:+ String sep "") = OsPath.rstrip_sep sep a.
Proof.
  induction a as [|c a IH].
  - change (OsPath.rstrip_sep sep (String sep "") = ""). rewrite rstrip_sep_cons.
    cbn. now rewrite Ascii.eqb_refl.
  - now rewrite str_app_cons, !rstrip_sep_cons, IH.
Qed.

Lemma rstrip_sep_fixed sep (a : string) :
  OsPath.ends_with_sep sep a = false -> OsPath.rstrip_sep sep a = a.
Proof.
  induction a as [|c a IH]; [reflexivity|].
  rewrite ends_with_sep_cons, rstrip_sep_cons. destruct a as [|d a].
  - intros ->. reflexivity.
  - intros E. now rewrite (IH E).
Qed.

Lemma rstrip_sep_all sep (a : string) :
  PyText.all_chars (fun c => Ascii.eqb c sep) a = true -> OsPath.rstrip_sep sep a = "".
Proof.
  induction a as [|c a IH]; [reflexivity|].
  change (Ascii.eqb c sep && PyText.all_chars (fun c => Ascii.eqb c sep) a = true
          -> OsPath.rstrip_sep sep (String c a) = "").
  intros [Hc Ha]%andb_prop. now rewrite rstrip_sep_cons, (IH Ha), Hc.
Qed.

Lemma join_ends_with_sep sep (a b : string) :
  b <> "" -> PyStr.startswith b (String sep "") = false ->
  OsPath.ends_with_sep sep (OsPath.join sep a b) = OsPath.ends_with_sep sep b.
Proof.
  intros Hb Hs. unfold OsPath.join. rewrite Hs.
  destruct (negb (PyStr.truthy a) || OsPath.ends_with_sep sep a).
  - now apply ends_with_sep_app.
  - rewrite ends_with_sep_app by discriminate.
    change (String sep "" +:+ b) with (String sep b).
    rewrite ends_with_sep_cons. now destruct b.
Qed.

Lemma join_dirname sep (a b : string) :
  OsPath.head sep b = None -> clean_dir sep a ->
  OsPath.dirname sep (OsPath.join sep a b) = a.
Proof.
  intros Hb Ha. unfold OsPath.join, OsPath.dirname.
  assert (Hs : PyStr.startswith b (String sep "") = false).
  { unfold PyStr.startswith. destruct b as [|c b]; [reflexivity|].
    rewrite head_cons in Hb. cbn.
    destruct (ascii_dec sep c) as [<-|]; [|reflexivity].
    rewrite Ascii.eqb_refl in Hb. now destruct (OsPath.head sep b). }
  rewrite Hs. destruct a as [|c a].
  { cbn [PyStr.truthy negb orb]. change ("" +:+ b) with b. now rewrite Hb. }
  cbn [PyStr.truthy negb orb].
  destruct (OsPath.ends_with_sep sep (String c a)) eqn:E.
  - destruct Ha as [Ha | Ha]; [congruence|].
    rewrite head_app, head_ends_with_sep by assumption.
    now rewrite rstrip_sep_all.
  - rewrite <- str_app_assoc, head_app by exact Hb.
    rewrite head_ends_with_sep
      by (rewrite ends_with_sep_app by discriminate; cbn; apply Ascii.eqb_refl).
    rewrite rstrip_sep_snoc, rstrip_sep_fixed by exact E. reflexivity.
Qed.

(** X18. Where the separator is [/] and the directory of the script is a
    directory name as [os.path.dirname] gives them (no separator at its
    end, or the root), the directory the driver asks [makedirs] for is the
    directory of the script, and the directory the interpreter is run in
    is its [output] subdirectory. *)
Theorem X18_directories {H : Host} :
  os_sep = "/"%char ->
  clean_dir os_sep script_dir ->
  OsPath.dirname os_sep output_path = script_dir
  /\ OsPath.dirname os_sep output_file = OsPath.join os_sep script_dir "output"
  /\ forall args tester_file,
       exists stderr preexec_fn,
         launch args tester_file
         = check_output tester_file (OsPath.join os_sep script_dir "output")
                        stderr 10 preexec_fn.
Proof.
  intros Hsep Hd.
  assert (E1 : OsPath.dirname os_sep output_path = script_dir)
    by (unfold output_path; apply join_dirname; [now rewrite Hsep | exact Hd]).
  assert (E2 : OsPath.dirname os_sep output_file = OsPath.join os_sep script_dir "output").
  { unfold output_file. apply join_dirname; [now rewrite Hsep|].
    left. rewrite join_ends_with_sep; rewrite ?Hsep; (reflexivity || discriminate). }
  repeat split; [exact E1 | exact E2 |].
  intros args tester_file. unfold launch. rewrite E2. eauto.
Qed.

Lemma X18_directories_witness :
  let H := Toy.linux in
  OsPath.dirname os_sep output_path = script_dir
  /\ OsPath.dirname os_sep output_file = OsPath.join os_sep script_dir "output"
  /\ forall args tester_file,
       exists stderr preexec_fn,
         launch args tester_file
         = check_output tester_file (OsPath.join os_sep script_dir "output")
                        stderr 10 preexec_fn.
Proof.
  intros H. apply (@X18_directories H).
  - reflexivity.
  - left. reflexivity.
Defined.

(** ** Where exceptions come from *)

Section Blame.
Context {H : Host}.


















End Blame.



(** ** The first line a run prints *)

Section Appends.
Context {H : Host}.

Lemma appends_silent {A} (m : M A) : (forall w, w_stdout (m w).2 = w_stdout w) -> appends m.
Proof. intros Hm w. exists "". now rewrite Hm, str_app_nil_r. Qed.

Lemma appends_print s : appends (print s).
Proof. intros w. now exists (s +:+ PyStr.nl). Qed.

Lemma appends_invoke c : appends (invoke c).
Proof. intros w. now eexists. Qed.

Lemma appends_bind {A B} (m : M A) (f : A -> M B) :
  appends m -> (forall a, appends (f a)) -> appends (m ≫= f).
Proof.
  intros Hm Hf w. destruct (Hm w) as (t1 & E1). unfold mbind, M_bind.
  destruct (m w) as [[e|a] w1]; cbn in *; [eauto|].
  destruct (Hf a w1) as (t2 & E2). exists (t1 +:+ t2).
  now rewrite E2, E1, str_app_assoc.
Qed.

Lemma appends_when b (m : M unit) : appends m -> appends (when b m).
Proof. destruct b; [auto | intros _; now apply appends_silent]. Qed.

Lemma appends_try_except {A} (m h : M A) cls :
  appends m -> appends h -> appends (try_except m cls h).
Proof.
  intros Hm Hh w. destruct (Hm w) as (t1 & E1). unfold try_except.
  destruct (m w) as [[e|a] w1]; cbn in *; [|eauto].
  destruct (String.eqb (exn_class e) cls); cbn; [|eauto].
  destruct (Hh w1) as (t2 & E2). exists (t1 +:+ t2).
  now rewrite E2, E1, str_app_assoc.
Qed.

Ltac appends_tac :=
  repeat first
    [ apply appends_bind; [| intros ?]
    | apply appends_when
    | apply appends_try_except
    | apply appends_print | apply appends_invoke
    | apply appends_silent; reflexivity
    | match goal with |- appends (if ?b then _ else _) => destruct b end ].

Lemma compile_code_first_line (args : Args) (w : world) :
  exists t,
    w_stdout (compile_code args w).2
    = w_stdout w +:+ "Compiling " +:+ source_file args +:+ PyStr.nl +:+ t.
Proof.
  unfold compile_code. unfold mbind at 1, M_bind at 1, print at 1. cbn [fst snd].
  match goal with |- context [w_stdout (?k ?w0).2] =>
    assert (Hk : appends k)
      by (unfold report_errors, run_program; appends_tac);
    destruct (Hk w0) as (t & Et)
  end.
  exists t. rewrite Et. cbn [w_stdout]. now rewrite !str_app_assoc.
Qed.

End Appends.

(** X20. A run only adds to [sys.stdout], and the first thing it adds
    is the line [Compiling] and the path of the source file, whatever
    happens afterwards. *)
Theorem X20_first_line {H : Host} (args : Args) (w : world) :
  exists rest,
    w_stdout (compile_code args w).2
    = w_stdout w +:+ "Compiling " +:+ source_file args +:+ PyStr.nl +:+ rest.
Proof. apply compile_code_first_line. Qed.

(** X21. The output of an answer with status 200 begins with the line
    [Compiling] and the path of the temporary file the handler made: the
    client is told that path. *)
Theorem X21_answer_names_temporary_file {H : Host} (d : list (string * json))
    (text : string) (w : world) :
  default (JStr "") (assoc "code" d) = JStr text ->
  let source_path := mkstemp ".c" (w_files w) (w_env w) in
  match (api_compile (inr (JDict d)) w).1 with
  | inr (Response 200 body) =>
      exists rest,
        body = [("success", JBool true);
                ("output", JStr ("Compiling " +:+ source_path +:+ PyStr.nl +:+ rest))]
  | inr (Response _ body) => assoc "success" body = Some (JBool false)
  | inl _ => False
  end.
Proof.
  intros Hcode source_path.
  unfold api_compile, try_except_Exception, api_except.
  rewrite (api_try_run d text w Hcode). cbv zeta. fold source_path.
  match goal with |- context [compile_code ?a ?q] =>
    destruct (compile_code_first_line a q) as (rest & E);
    destruct (compile_code a q) as [[e|u] w1]
  end; cbn in *.
  - reflexivity.
  - destruct (w_files w1 !! source_path); cbn.
    + exists rest. now rewrite E.
    + reflexivity.
Qed.

Lemma X21_answer_names_temporary_file_witness :
  let H := Toy.linux in
  let d := [("code", JStr "int x;")] in
  let w := World "" ∅ Toy.fresh [] in
  let source_path := mkstemp ".c" (w_files w) (w_env w) in
  match (api_compile (inr (JDict d)) w).1 with
  | inr (Response 200 body) =>
      exists rest,
        body = [("success", JBool true);
                ("output", JStr ("Compiling " +:+ source_path +:+ PyStr.nl +:+ rest))]
  | inr (Response _ body) => assoc "success" body = Some (JBool false)
  | inl _ => False
  end.
Proof.
  intros H d w source_path.
  apply (X21_answer_names_temporary_file d "int x;" w). reflexivity.
Defined.
